(** * Schema evolution assistant: schema diff and migration SQL

    A shallow embedding of [schema_utils.py] and [llm_utils.py]:
    schema inference from the dtypes of a data frame, the three-way schema
    diff, the rule-based SQL generator, the explanation delegator, the
    warehouse fetch, the configuration lookup and the text-generation
    boundary; and of the two analysis handlers of [app.py] that call them.

    Python [str] values are represented by [string], holding their UTF-8
    bytes: concatenation, equality, substring tests and the code-point order
    used by [sorted] coincide with the bytewise ones.  [str.upper] is the one
    operation that does not: it is a parameter of the development, and
    [ascii_upper] is its restriction to ASCII text. *)

From Stdlib Require Import String Ascii List Bool Arith NArith Lia DecimalString.
From Stdlib Require Import Permutation Sorted.
Import ListNotations.
Open Scope list_scope.
Open Scope string_scope.

(** ** Python strings *)

Module PyStr.

(** [s.startswith(p)] *)
Fixpoint startswith (p s : string) : bool :=
  match p, s with
  | EmptyString, _ => true
  | String a p', String b s' => Ascii.eqb a b && startswith p' s'
  | String _ _, EmptyString => false
  end.

(** [needle in s] on strings: [needle] occurs at some offset of [s]. *)
Fixpoint str_in (needle s : string) : bool :=
  startswith needle s ||
  match s with
  | EmptyString => false
  | String _ s' => str_in needle s'
  end.

(** [sep.join(l)] *)
Fixpoint join (sep : string) (l : list string) : string :=
  match l with
  | [] => ""
  | [x] => x
  | x :: l' => x ++ sep ++ join sep l'
  end.

Definition newline : ascii := "010"%char.
Definition nl : string := String newline "".

(** [s.split("\n")]: the lines of a text. *)
Fixpoint lines (s : string) : list string :=
  match s with
  | EmptyString => [""]
  | String c s' =>
      if Ascii.eqb c newline then "" :: lines s'
      else match lines s' with
           | [] => [String c ""]
           | l :: ls => String c l :: ls
           end
  end.

(** [c in s] for a single character. *)
Fixpoint has_char (c : ascii) (s : string) : bool :=
  match s with
  | EmptyString => false
  | String b s' => Ascii.eqb b c || has_char c s'
  end.

(** ASCII upper-casing: what [str.upper] does on ASCII text. *)
Definition ascii_upper_char (c : ascii) : ascii :=
  let n := nat_of_ascii c in
  if ((97 <=? n) && (n <=? 122))%nat then ascii_of_nat (n - 32) else c.

Fixpoint ascii_upper (s : string) : string :=
  match s with
  | EmptyString => EmptyString
  | String c s' => String (ascii_upper_char c) (ascii_upper s')
  end.

(** A name that holds no line break and nowhere the text [DROP]. *)
Definition clean (s : string) : bool :=
  negb (has_char newline s) && negb (str_in "DROP" s).


(** Lexicographic order on strings, as [<=] on [str]. *)
Definition str_leb (a b : string) : bool :=
  match String.compare a b with
  | Gt => false
  | _ => true
  end.

End PyStr.

(** ** Python dictionaries

    A [dict] is its items in insertion order.  Keys are pairwise distinct in
    every dictionary built by [dict_set]. *)

Module PyDict.

Section Ops.
Context {V : Type}.

Definition dict : Type := list (string * V).

Definition keys (d : dict) : list string := map fst d.

(** [d.get(k)] *)
Fixpoint dict_get (d : dict) (k : string) : option V :=
  match d with
  | [] => None
  | (k', v) :: d' => if String.eqb k k' then Some v else dict_get d' k
  end.

(** [k in d] *)
Definition dict_mem (k : string) (d : dict) : bool :=
  match dict_get d k with
  | Some _ => true
  | None => false
  end.

(** [d[k] = v]: an existing key keeps its position, a new key goes last. *)
Fixpoint dict_set (d : dict) (k : string) (v : V) : dict :=
  match d with
  | [] => [(k, v)]
  | (k', v') :: d' =>
      if String.eqb k k' then (k', v) :: d'
      else (k', v') :: dict_set d' k v
  end.
End Ops.

Arguments dict : clear implicits.

(** A dict comprehension over the items of [d]: [h k v] is [None] when the
    filter rejects the item, otherwise the key and value to store. *)
Definition comp_step {A B : Type} (h : string -> A -> option (string * B))
    (acc : dict B) (kv : string * A) : dict B :=
  match h (fst kv) (snd kv) with
  | Some (k, b) => dict_set acc k b
  | None => acc
  end.

Definition dict_comp {A B : Type} (h : string -> A -> option (string * B))
    (d : dict A) : dict B :=
  fold_left (comp_step h) d [].

(** The items a comprehension selects, before they are stored. *)
Fixpoint selected {A B : Type} (h : string -> A -> option (string * B))
    (d : dict A) : list (string * B) :=
  match d with
  | [] => []
  | (k, v) :: d' =>
      match h k v with
      | Some kb => kb :: selected h d'
      | None => selected h d'
      end
  end.

(** A comprehension that stores each selected item under its own key. *)
Definition keeps_key {A B : Type} (h : string -> A -> option (string * B))
  : Prop :=
  forall k a k' b, h k a = Some (k', b) -> k' = k.

(** [not d] for a dict. *)
Definition is_empty {V : Type} (d : dict V) : bool :=
  match d with
  | [] => true
  | _ :: _ => false
  end.

End PyDict.

Import PyStr PyDict.

(** ** schema_utils.py: the schema differ *)

Section Differ.

(** [str.upper] *)
Variable upper : string -> string.

Definition Schema : Type := dict string.

(** [{k.upper(): v for k, v in s.items()}] *)
Definition normalize (s : Schema) : Schema :=
  dict_comp (fun k v => Some (upper k, v)) s.

(** [{col: a[col] for col in a if col not in b}]: the comprehension of
    [new_cols] (with [a = new], [b = existing]) and of [missing_cols] (the
    other way round).  Iterating [for col in a] and reading [a[col]] is
    iterating the items of [a]. *)
Definition only_in (a b : Schema) : Schema :=
  dict_comp (fun col t => if dict_mem col b then None else Some (col, t)) a.

(** [{col: (existing[col], new[col]) for col in existing
      if col in new and existing[col] != new[col]}] *)
Definition type_conflicts (existing new : Schema) : dict (string * string) :=
  dict_comp
    (fun col old =>
       match dict_get new col with
       | Some nw => if String.eqb old nw then None else Some (col, (old, nw))
       | None => None
       end)
    existing.

Definition compare_schemas (existing new : Schema)
  : Schema * Schema * dict (string * string) :=
  let existing := normalize existing in
  let new := normalize new in
  let new_cols := only_in new existing in
  let missing_cols := only_in existing new in
  let conflicts := type_conflicts existing new in
  (new_cols, missing_cols, conflicts).

Definition added (existing new : Schema) : Schema :=
  fst (fst (compare_schemas existing new)).
Definition removed (existing new : Schema) : Schema :=
  snd (fst (compare_schemas existing new)).
Definition conflicted (existing new : Schema) : dict (string * string) :=
  snd (compare_schemas existing new).

(** A column present in both normalized schemas with equal type: the
    class the differ does not materialize. *)
Definition unchanged (existing new : Schema) (col : string) : bool :=
  match dict_get (normalize existing) col, dict_get (normalize new) col with
  | Some old, Some nw => String.eqb old nw
  | _, _ => false
  end.

(** In how many of the four classes a column falls. *)
Definition class_count (existing new : Schema) (col : string) : nat :=
  Nat.b2n (dict_mem col (added existing new)) +
  Nat.b2n (dict_mem col (removed existing new)) +
  Nat.b2n (dict_mem col (conflicted existing new)) +
  Nat.b2n (unchanged existing new col).

End Differ.

(** ** Results of calls that may raise *)

Inductive exn : Type :=
| IndexError
| TypeError
| AttributeError
| KeyError (key : string)
| ExternalError (msg : string).

Inductive outcome (A : Type) : Type :=
| Returns (a : A)
| Raises (e : exn).

Arguments Returns {A} a.
Arguments Raises {A} e.

(** Python values that cross the text-generation boundary: decoded JSON and
    the values the functions return. *)
#[warnings="-register-all"]
Inductive pyval : Type :=
| VNone
| VBool (b : bool)
| VNum (repr : string)
| VStr (s : string)
| VList (items : list pyval)
| VDict (fields : list (string * pyval)).

(** ** schema_utils.py: inference, SQL generation, explanation *)

(** A column of a data frame whose labels are distinct strings: its label
    and [str(df[col].dtype)], the one thing [infer_schema_from_df] reads of
    it.  On such a frame every [df[col]] is a Series and every [col.upper()]
    succeeds, and [infer_schema_from_df] below is the schema the loop
    builds.  [infer_schema_from_frame] is the function on any frame, with
    the labels that make it raise. *)
Record Column : Type := mkColumn { label : string; dtype : string }.

Definition DataFrame : Type := list Column.

Section SchemaUtils.

Variable upper : string -> string.

(** The type the [if]/[elif] chain of [infer_schema_from_df] selects. *)
Definition canonical_type (dtype : string) : string :=
  if str_in "int" dtype then "NUMBER"
  else if str_in "float" dtype then "FLOAT"
  else if str_in "bool" dtype then "BOOLEAN"
  else if str_in "datetime" dtype || str_in "date" dtype then "TIMESTAMP_NTZ"
  else "TEXT".

Definition infer_schema_from_df (df : DataFrame) : Schema :=
  fold_left
    (fun schema col =>
       let dtype := dtype col in
       if str_in "int" dtype then
         dict_set schema (upper (label col)) "NUMBER"
       else if str_in "float" dtype then
         dict_set schema (upper (label col)) "FLOAT"
       else if str_in "bool" dtype then
         dict_set schema (upper (label col)) "BOOLEAN"
       else if str_in "datetime" dtype || str_in "date" dtype then
         dict_set schema (upper (label col)) "TIMESTAMP_NTZ"
       else
         dict_set schema (upper (label col)) "TEXT")
    df [].

(** Order of [(k, v)] tuples of strings. *)
Definition item_leb (a b : string * string) : bool :=
  match String.compare (fst a) (fst b) with
  | Lt => true
  | Eq => str_leb (snd a) (snd b)
  | Gt => false
  end.

Fixpoint insert_sorted (x : string * string) (l : list (string * string))
  : list (string * string) :=
  match l with
  | [] => [x]
  | y :: l' => if item_leb x y then x :: l else y :: insert_sorted x l'
  end.

(** [sorted(s.items())] *)
Definition sorted_items (s : Schema) : list (string * string) :=
  fold_right insert_sorted [] s.

Definition _format_schema (s : Schema) : string :=
  join nl (map (fun kv => "- " ++ fst kv ++ ": " ++ snd kv) (sorted_items s)).

(** The message of the no-change path. *)
Definition no_change_message (table_name : string) : string :=
  "✅ No schema changes detected for table `" ++ table_name ++ "`.  " ++ nl ++
  "Both existing and candidate schemas are identical.  " ++ nl ++
  "No risks, conflicts, or SQL migrations are required.".

Definition explain_prompt (existing new : Schema) (table_name : string)
  : string :=
  nl ++
  "You are an expert Snowflake engineer. Compare the two table schemas and explain the changes clearly." ++ nl ++
  nl ++
  "Table: " ++ table_name ++ nl ++
  nl ++
  "Existing schema:" ++ nl ++
  _format_schema existing ++ nl ++
  nl ++
  "New schema (candidate):" ++ nl ++
  _format_schema new ++ nl ++
  nl ++
  "Describe:" ++ nl ++
  "1) Added columns (with types)" ++ nl ++
  "2) Removed or missing columns and their impact" ++ nl ++
  "3) Data type conflicts and safe migration advice" ++ nl ++
  "4) Risks (NULLability, backfills, ingestion issues)" ++ nl ++
  "Keep it concise with bullet points." ++ nl.

(** [explain_changes_with_ai], over the text-generation capability
    [chat_llm].  The second component is the list of prompts sent to
    [chat_llm], in order. *)
Definition explain_changes_with_ai (chat_llm : string -> outcome pyval)
    (existing new : Schema) (table_name : string)
  : outcome pyval * list string :=
  let '(new_cols, missing_cols, conflicts) := compare_schemas upper existing new in
  if is_empty new_cols && is_empty missing_cols && is_empty conflicts then
    (Returns (VStr (no_change_message table_name)), [])
  else
    let prompt := explain_prompt existing new table_name in
    (chat_llm prompt, [prompt]).

Definition add_column_stmt (table_name : string) (item : string * string)
  : string :=
  "ALTER TABLE " ++ table_name ++ " ADD COLUMN " ++ fst item ++ " " ++
  snd item ++ " NULL;".

Definition missing_note (item : string * string) : string :=
  "-- NOTE: Column " ++ fst item ++ " (" ++ snd item ++
  ") exists in old schema but not in new. Drop only if intentional.".

Definition alter_type_stmt (table_name : string)
    (item : string * (string * string)) : string :=
  "ALTER TABLE " ++ table_name ++ " ALTER COLUMN " ++ fst item ++
  " SET DATA TYPE " ++ snd (snd item) ++ ";".

Definition no_change_sql : string :=
  "-- No schema changes detected. No ALTER TABLE needed.".

(** [for x in xs: sql_statements.append(f x)] *)
Definition append_each {A : Type} (f : A -> string) (xs : list A)
    (sql_statements : list string) : list string :=
  fold_left (fun acc x => (acc ++ [f x])%list) xs sql_statements.

(** The list [sql_statements] when the three loops are done. *)
Definition sql_statements (existing new : Schema) (table_name : string)
  : list string :=
  let '(new_cols, missing_cols, conflicts) := compare_schemas upper existing new in
  let sql_statements := [] in
  let sql_statements := append_each (add_column_stmt table_name) new_cols sql_statements in
  let sql_statements := append_each missing_note missing_cols sql_statements in
  let sql_statements := append_each (alter_type_stmt table_name) conflicts sql_statements in
  sql_statements.

Definition generate_sql_with_ai (existing new : Schema) (table_name : string)
  : string :=
  let sql_statements := sql_statements existing new table_name in
  match sql_statements with
  | [] => no_change_sql
  | _ :: _ => join nl sql_statements
  end.

(** The upper-cased column names and the types of a schema are clean. *)
Definition clean_schema (s : Schema) : Prop :=
  forall k t, In (k, t) s -> clean (upper k) = true /\ clean t = true.

End SchemaUtils.

(** ** llm_utils.py: the text-generation boundary *)

(** The module-level configuration, read once through [_DEF]. *)
Record Config : Type := mkConfig {
  LLM_PROVIDER : string;
  LLM_ENDPOINT : string;
  LLM_API_KEY : string;
  OLLAMA_MODEL : string
}.

(** What [requests.post] hands back: the status code, the body as text, and
    the result of decoding the body with [resp.json()]. *)
Record Response : Type := mkResponse {
  status_code : nat;
  text : string;
  json : outcome pyval
}.

(** The two backends, as seen from [chat_llm].  [ollama_chat model prompt]
    is the result of importing the client and calling [ollama.chat];
    [requests_post endpoint api_key prompt] is the result of the HTTP call
    with the bearer token in its headers and the prompt as its inputs. *)
Record Backends : Type := mkBackends {
  ollama_chat : string -> string -> outcome pyval;
  requests_post : string -> string -> string -> outcome Response
}.

Section LlmUtils.

(** [str(e)] for an exception and [str(data)] for a decoded body. *)
Variable exn_str : exn -> string.
Variable py_str : pyval -> string.

(** [x[key]] for a string key. *)
Definition subscript (x : pyval) (key : string) : outcome pyval :=
  match x with
  | VDict fields =>
      match dict_get fields key with
      | Some v => Returns v
      | None => Raises (KeyError key)
      end
  | _ => Raises TypeError
  end.

(** [data[0]] for a list. *)
Definition first_item (items : list pyval) : outcome pyval :=
  match items with
  | [] => Raises IndexError
  | x :: _ => Returns x
  end.

(** [needle in x] for a string [needle]. *)
Definition py_in (needle : string) (x : pyval) : outcome bool :=
  match x with
  | VDict fields => Returns (dict_mem needle fields)
  | VStr s => Returns (str_in needle s)
  | VList items =>
      Returns (existsb
                 (fun y => match y with
                           | VStr s => String.eqb s needle
                           | _ => false
                           end)
                 items)
  | VNone | VBool _ | VNum _ => Raises TypeError
  end.

Definition bind {A B : Type} (m : outcome A) (k : A -> outcome B)
  : outcome B :=
  match m with
  | Returns a => k a
  | Raises e => Raises e
  end.

Notation "x <- m ;; k" := (bind m (fun x => k))
  (at level 61, m at next level, right associativity).

(** [try: body except Exception as e: return handler(e)] *)
Definition try_except {A : Type} (body : outcome A) (handler : exn -> outcome A)
  : outcome A :=
  match body with
  | Returns a => Returns a
  | Raises e => handler e
  end.

Definition decimal (n : nat) : string :=
  NilEmpty.string_of_uint (Nat.to_uint n).

Definition chat_llm (cfg : Config) (net : Backends) (prompt : string)
  : outcome pyval :=
  if String.eqb (LLM_PROVIDER cfg) "ollama" then
    resp <- ollama_chat net (OLLAMA_MODEL cfg) prompt ;;
    message <- subscript resp "message" ;;
    subscript message "content"
  else if String.eqb (LLM_PROVIDER cfg) "remote" then
    if String.eqb (LLM_ENDPOINT cfg) "" || String.eqb (LLM_API_KEY cfg) "" then
      Returns (VStr "❌ Hugging Face endpoint or API key not set.")
    else
      try_except
        (resp <- requests_post net (LLM_ENDPOINT cfg) (LLM_API_KEY cfg) prompt ;;
         if negb (status_code resp =? 200)%nat then
           Returns (VStr ("❌ Hugging Face API error " ++ decimal (status_code resp)
                          ++ ": " ++ text resp))
         else
           data <- json resp ;;
           (* Some models return list of dicts *)
           is_generated <-
             match data with
             | VList items =>
                 first <- first_item items ;;
                 py_in "generated_text" first
             | _ => Returns false
             end ;;
           if is_generated then
             match data with
             | VList items =>
                 first <- first_item items ;;
                 subscript first "generated_text"
             | _ => Raises TypeError
             end
           else
             Returns (VStr (py_str data)))
        (fun e => Returns (VStr ("❌ Error calling Hugging Face API: " ++ exn_str e)))
  else
    Returns (VStr "❌ Invalid LLM_PROVIDER. Use 'ollama' or 'remote'.").

(** The value is a [str]. *)
Definition is_str (v : pyval) : bool :=
  match v with
  | VStr _ => true
  | _ => false
  end.

End LlmUtils.

(** ** schema_utils.py: the warehouse fetch *)

(** A live cursor, as [fetch_schema_from_snowflake] uses it:
    [cur.execute(q, params)], then [cur.fetchall()] for the rows of that
    query (column name, data type), and [cur.close()]. *)
Record Cursor : Type := mkCursor {
  cur_execute : string -> string * string -> outcome unit;
  cur_fetchall : string -> string * string -> outcome (list (string * string));
  cur_close : outcome unit
}.

(** The calls a run makes on the cursor, in order. *)
Inductive cursor_call : Type :=
| CallExecute (q : string) (params : string * string)
| CallFetchall
| CallClose.

Section Fetch.

Variable upper : string -> string.

Definition catalog_query (database : string) : string :=
  nl ++
  "    SELECT COLUMN_NAME, DATA_TYPE" ++ nl ++
  "    FROM " ++ database ++ ".INFORMATION_SCHEMA.COLUMNS" ++ nl ++
  "    WHERE TABLE_SCHEMA = %s AND TABLE_NAME = %s" ++ nl ++
  "    ORDER BY ORDINAL_POSITION" ++ nl ++
  "    ".

(** [{r[0].upper(): r[1].upper() for r in rows}] *)
Definition schema_of_rows (rows : list (string * string)) : Schema :=
  dict_comp (fun name type => Some (upper name, upper type)) rows.

(** [try: body finally: cur.close()]: the close runs on every path, and an
    exception of its own replaces the result of the body. *)
Definition finally_close {A : Type} (cur : Cursor)
    (body : outcome A * list cursor_call) : outcome A * list cursor_call :=
  let '(result, calls) := body in
  match cur_close cur with
  | Returns _ => (result, (calls ++ [CallClose])%list)
  | Raises e => (Raises e, (calls ++ [CallClose])%list)
  end.

(** [fetch_schema_from_snowflake], from the cursor [conn.cursor()] gave. *)
Definition fetch_schema_from_snowflake (cur : Cursor)
    (database schema table : string) : outcome Schema * list cursor_call :=
  let q := catalog_query database in
  let params := (upper schema, upper table) in
  finally_close cur
    match cur_execute cur q params with
    | Raises e => (Raises e, [CallExecute q params])
    | Returns _ =>
        match cur_fetchall cur q params with
        | Raises e => (Raises e, [CallExecute q params; CallFetchall])
        | Returns rows =>
            (Returns (schema_of_rows rows), [CallExecute q params; CallFetchall])
        end
    end.

End Fetch.

(** ** llm_utils.py: configuration *)

(** Where [_DEF] looks: [st.secrets], whose access raises when no secrets
    are configured, and the process environment. *)
Record Settings : Type := mkSettings {
  secrets : outcome (dict string);
  environ : dict string
}.

(** [os.getenv(k, d)] *)
Definition getenv (env : dict string) (k d : string) : string :=
  match dict_get env k with
  | Some v => v
  | None => d
  end.

(** [_DEF(k, d)], for a string default as at every call of the module. *)
Definition _DEF (st : Settings) (k d : string) : string :=
  match secrets st with
  | Returns s =>
      match dict_get s k with
      | Some v => v
      | None => getenv (environ st) k d
      end
  | Raises _ => getenv (environ st) k d
  end.

(** The module-level constants, with the model name [chat_llm] reads. *)
Definition module_config (st : Settings) : Config :=
  mkConfig (_DEF st "LLM_PROVIDER" "ollama")
           (_DEF st "LLM_ENDPOINT" "")
           (_DEF st "LLM_API_KEY" "")
           (_DEF st "OLLAMA_MODEL" "llama3.1:8b-instruct").

(** ** Vocabulary of the properties *)

(** The type of [col] once a diff is applied to the existing schema: an
    added column has its new type, a conflicting one the type of the
    candidate, a removed one is gone, any other keeps its type. *)
Definition apply_diff (existing new_cols missing_cols : Schema)
    (conflicts : dict (string * string)) (col : string) : option string :=
  match dict_get new_cols col with
  | Some t => Some t
  | None =>
      match dict_get conflicts col with
      | Some (_, nw) => Some nw
      | None =>
          if dict_mem col missing_cols then None else dict_get existing col
      end
  end.

(** The keys of a list in the order of their first occurrence. *)
Definition first_seen (l : list string) : list string :=
  rev (nodup string_dec (rev l)).


(** ** app.py: the two analysis handlers *)

(** What a handler puts on the page, in order. *)
Inductive ui : Type :=
| UiError (msg : string)
| UiMarkdown (body : pyval)
| UiCode (sql : string)
| UiChart (counts : list (string * nat)).

(** The part of [st.session_state] the handlers read and write. *)
Record Session : Type := mkSession {
  latest_context : string;
  live_schema : option Schema;
  prev_schema : Schema
}.

Section App.

Variable upper : string -> string.

(** [str(e)] for an exception and [str(d)] for a schema in an f-string. *)
Variable exn_str : exn -> string.
Variable schema_str : Schema -> string.

(** A name in an f-string: [None] prints as its name. *)
Definition fmt (x : option string) : string :=
  match x with
  | Some s => s
  | None => "None"
  end.

(** The data of the chart: the sizes of the three results. *)
Definition change_counts (new_cols missing_cols : Schema)
    (conflicts : dict (string * string)) : list (string * nat) :=
  [("New Columns", length new_cols);
   ("Missing Columns", length missing_cols);
   ("Conflicts", length conflicts)].

(** The body of [if st.button("Analyze changes with AI")]: what is shown,
    the session afterwards, and the prompts sent to [chat_llm]. *)
Definition analyze_live (chat_llm : string -> outcome pyval)
    (session : Session) (db sc table : option string)
  : list ui * Session * list string :=
  let live := live_schema session in
  let prev := prev_schema session in
  match live with
  | None | Some [] =>
      ([UiError "No live schema present. Fetch it first."], session, [])
  | Some live =>
      let table_name := fmt db ++ "." ++ fmt sc ++ "." ++ fmt table in
      let '(explanation, prompts) :=
        explain_changes_with_ai upper chat_llm prev live table_name in
      match explanation with
      | Raises e =>
          ([UiError ("Error while calling AI: " ++ exn_str e)], session, prompts)
      | Returns explanation =>
          let sql := generate_sql_with_ai upper prev live table_name in
          let '(new_cols, missing_cols, conflicts) :=
            compare_schemas upper prev live in
          ([UiMarkdown (VStr "### AI Explanation");
            UiMarkdown explanation;
            UiMarkdown (VStr "### AI-Generated SQL");
            UiCode sql;
            UiMarkdown (VStr "### Schema Changes Visualization");
            UiChart (change_counts new_cols missing_cols conflicts)],
           mkSession ("Prev: " ++ schema_str prev ++ nl ++ "Live: "
                      ++ schema_str live ++ nl ++ "SQL: " ++ sql)
                     (live_schema session) (prev_schema session),
           prompts)
      end
  end.

(** The body of [if st.button("Ask AI to explain & generate SQL")] of the
    local mode, after the diff of [existing_schema] and [new_schema] was
    shown: no handler surrounds the two calls. *)
Definition analyze_local (chat_llm : string -> outcome pyval)
    (session : Session) (existing_schema new_schema : Schema)
    (table_name : string)
  : outcome (list ui * Session) * list string :=
  let '(explanation, prompts) :=
    explain_changes_with_ai upper chat_llm existing_schema new_schema table_name in
  match explanation with
  | Raises e => (Raises e, prompts)
  | Returns explanation =>
      let sql := generate_sql_with_ai upper existing_schema new_schema table_name in
      let '(new_cols, missing_cols, conflicts) :=
        compare_schemas upper existing_schema new_schema in
      (Returns
         ([UiMarkdown (VStr "### AI Explanation");
           UiMarkdown explanation;
           UiMarkdown (VStr "### AI-Generated SQL");
           UiCode sql;
           UiMarkdown (VStr "### Schema Changes Visualization");
           UiChart (change_counts new_cols missing_cols conflicts)],
          mkSession ("Existing: " ++ schema_str existing_schema ++ nl ++ "New: "
                     ++ schema_str new_schema ++ nl ++ "SQL: " ++ sql)
                    (live_schema session) (prev_schema session)),
       prompts)
  end.

End App.

(** ** schema_utils.py: inference on any frame *)

(** A column label: a [str], or a label of another type (an [int]
    position, a [float], [None]), kept by its [repr]. *)
Inductive Label : Type :=
| LStr (s : string)
| LOther (repr : string).

Definition label_eqb (a b : Label) : bool :=
  match a, b with
  | LStr s, LStr t => String.eqb s t
  | LOther r, LOther q => String.eqb r q
  | _, _ => false
  end.

Definition label_text (col : Label) : string :=
  match col with
  | LStr s => s
  | LOther r => r
  end.

Record FrameColumn : Type := mkFrameColumn {
  col_label : Label;
  col_dtype : string
}.

(** A data frame, by its columns in order; a label may repeat. *)
Definition Frame : Type := list FrameColumn.

(** [df[col]]: the columns that carry the label. *)
Definition getitem (df : Frame) (col : Label) : list FrameColumn :=
  filter (fun c => label_eqb (col_label c) col) df.

(** [str(df[col].dtype)]: a single column is a Series and has a dtype;
    several columns under one label are a DataFrame, which has no attribute
    [dtype]. *)
Definition selection_dtype (col : Label) (selection : list FrameColumn)
  : outcome string :=
  match selection with
  | [] => Raises (KeyError (label_text col))
  | [c] => Returns (col_dtype c)
  | _ :: _ :: _ => Raises AttributeError
  end.

(** The columns of a frame with string labels, as [infer_schema_from_df]
    reads them. *)
Definition to_column (c : FrameColumn) : Column :=
  mkColumn (label_text (col_label c)) (col_dtype c).

(** Every label is a [str] and stands once. *)
Definition distinct_string_labels (df : Frame) : Prop :=
  (forall c, In c df -> exists l, col_label c = LStr l) /\
  NoDup (map col_label df).

Section InferFrame.

Variable upper : string -> string.

(** [col.upper()]: only a [str] has the method. *)
Definition label_upper (col : Label) : outcome string :=
  match col with
  | LStr s => Returns (upper s)
  | LOther _ => Raises AttributeError
  end.

(** [schema[col.upper()] = type] *)
Definition assign (schema : Schema) (col : Label) (type : string)
  : outcome Schema :=
  bind (label_upper col) (fun name => Returns (dict_set schema name type)).

(** One turn of the loop of [infer_schema_from_df]. *)
Definition frame_step (df : Frame) (acc : outcome Schema) (c : FrameColumn)
  : outcome Schema :=
  bind acc (fun schema =>
  let col := col_label c in
  bind (selection_dtype col (getitem df col)) (fun dtype =>
  if str_in "int" dtype then assign schema col "NUMBER"
  else if str_in "float" dtype then assign schema col "FLOAT"
  else if str_in "bool" dtype then assign schema col "BOOLEAN"
  else if str_in "datetime" dtype || str_in "date" dtype then
    assign schema col "TIMESTAMP_NTZ"
  else assign schema col "TEXT")).

(** [infer_schema_from_df] on any frame: the first column whose label
    repeats or is no [str] ends the loop with its exception. *)
Definition infer_schema_from_frame (df : Frame) : outcome Schema :=
  fold_left (frame_step df) df (Returns []).

End InferFrame.

(** * Properties *)

(** ** Dictionaries *)

Module DictFacts.

Section Facts.
Context {V : Type}.
Implicit Types (d : dict V) (k : string) (v : V).

Lemma dict_get_In d k v : dict_get d k = Some v -> In (k, v) d.
Proof.
  induction d as [|[k' v'] d IH]; simpl; [discriminate|].
  destruct (String.eqb_spec k k') as [->|Hne]; intros H.
  - injection H as ->. now left.
  - right. auto.
Qed.

Lemma dict_get_None d k : dict_get d k = None <-> ~ In k (keys d).
Proof.
  induction d as [|[k' v'] d IH]; simpl.
  - tauto.
  - destruct (String.eqb_spec k k') as [->|Hne].
    + split; [discriminate|]. intros H. exfalso. apply H. now left.
    + rewrite IH. split; intros H; [intros [E|E]; [congruence|tauto]|tauto].
Qed.

Lemma dict_mem_get k d :
  dict_mem k d = match dict_get d k with Some _ => true | None => false end.
Proof. reflexivity. Qed.

Lemma dict_mem_In k d : dict_mem k d = true <-> In k (keys d).
Proof.
  unfold dict_mem. destruct (dict_get d k) eqn:E.
  - split; [intros _|reflexivity].
    apply dict_get_In in E. apply (in_map fst) in E. exact E.
  - apply dict_get_None in E. split; [discriminate|tauto].
Qed.

Lemma dict_mem_false k d : dict_mem k d = false <-> ~ In k (keys d).
Proof.
  rewrite <- dict_mem_In. destruct (dict_mem k d); split; congruence.
Qed.

(** In a dictionary, iterating the items gives [d[k]] for each key. *)
Lemma dict_get_item d k v :
  NoDup (keys d) -> In (k, v) d -> dict_get d k = Some v.
Proof.
  induction d as [|[k' v'] d IH]; simpl; [tauto|].
  intros Hnd [E|Hin].
  - injection E as -> ->. now rewrite String.eqb_refl.
  - inversion Hnd as [|? ? Hnotin Hnd']; subst.
    destruct (String.eqb_spec k k') as [->|Hne].
    + exfalso. apply Hnotin. apply (in_map fst) in Hin. exact Hin.
    + auto.
Qed.

Lemma dict_get_set d k v k' :
  dict_get (dict_set d k v) k' =
  if String.eqb k' k then Some v else dict_get d k'.
Proof.
  induction d as [|[k0 v0] d IH]; simpl.
  - reflexivity.
  - destruct (String.eqb_spec k k0) as [->|Hne]; simpl.
    + destruct (String.eqb_spec k' k0); reflexivity.
    + rewrite IH.
      destruct (String.eqb_spec k' k0) as [->|]; [|reflexivity].
      destruct (String.eqb_spec k0 k); [congruence|reflexivity].
Qed.

Lemma keys_set d k v k' :
  In k' (keys (dict_set d k v)) <-> k' = k \/ In k' (keys d).
Proof.
  rewrite <- !dict_mem_In. unfold dict_mem. rewrite dict_get_set.
  destruct (String.eqb_spec k' k) as [->|Hne].
  - tauto.
  - destruct (dict_get d k'); split; intros H; auto.
    destruct H as [H|H]; [contradiction|discriminate].
Qed.

Lemma dict_set_fresh d k v :
  ~ In k (keys d) -> dict_set d k v = (d ++ [(k, v)])%list.
Proof.
  induction d as [|[k0 v0] d IH]; simpl; intros H.
  - reflexivity.
  - destruct (String.eqb_spec k k0) as [->|Hne]; [tauto|].
    f_equal. apply IH. tauto.
Qed.

Lemma keys_set_NoDup d k v : NoDup (keys d) -> NoDup (keys (dict_set d k v)).
Proof.
  induction d as [|[k0 v0] d IH]; simpl; intros H.
  - constructor; [simpl; tauto|constructor].
  - inversion H as [|? ? Hnotin Hnd]; subst.
    destruct (String.eqb_spec k k0) as [->|Hne]; simpl.
    + constructor; assumption.
    + constructor; [|auto].
      change (~ In k0 (keys (dict_set d k v))).
      rewrite keys_set. intros [E|E]; [congruence|contradiction].
Qed.

Lemma dict_set_items d k v k' v' :
  In (k', v') (dict_set d k v) -> (k', v') = (k, v) \/ In (k', v') d.
Proof.
  induction d as [|[k0 v0] d IH]; simpl.
  - intros [E|[]]. left. now symmetry.
  - destruct (String.eqb_spec k k0) as [->|Hne]; simpl.
    + intros [E|H]; [left; now symmetry|right; now right].
    + intros [E|H]; [right; now left|].
      destruct (IH H); [now left|right; now right].
Qed.

Lemma dict_get_app (d1 d2 : dict V) k :
  dict_get (d1 ++ d2)%list k =
  match dict_get d1 k with
  | Some v => Some v
  | None => dict_get d2 k
  end.
Proof.
  induction d1 as [|[k0 v0] d1 IH]; simpl; [reflexivity|].
  destruct (String.eqb k k0); [reflexivity|exact IH].
Qed.

End Facts.

Section Comprehension.
Context {A B : Type}.
Variable h : string -> A -> option (string * B).

Let step := comp_step h.

Lemma comp_from_NoDup (d : dict A) : forall acc,
  NoDup (keys acc) -> NoDup (keys (fold_left step d acc)).
Proof.
  induction d as [|[k a] d IH]; simpl; intros acc Hacc; [assumption|].
  apply IH. unfold step, comp_step; simpl.
  destruct (h k a) as [[k' b]|]; [apply keys_set_NoDup|]; assumption.
Qed.

Lemma dict_comp_NoDup (d : dict A) : NoDup (keys (dict_comp h d)).
Proof. apply comp_from_NoDup. constructor. Qed.

Lemma comp_from_keys (d : dict A) : forall acc k,
  In k (keys (fold_left step d acc)) <->
  In k (keys acc) \/ In k (keys (selected h d)).
Proof.
  induction d as [|[k0 a] d IH]; simpl; intros acc k; [tauto|].
  rewrite IH. unfold step, comp_step; simpl.
  destruct (h k0 a) as [[k' b]|]; simpl; [|tauto].
  rewrite keys_set. intuition congruence.
Qed.

Lemma comp_from_items (d : dict A) : forall acc x,
  In x (fold_left step d acc) -> In x acc \/ In x (selected h d).
Proof.
  induction d as [|[k0 a] d IH]; simpl; intros acc [k b] H; [now left|].
  apply IH in H. unfold step, comp_step in H; simpl in H.
  destruct (h k0 a) as [[k' b']|]; simpl; [|exact H].
  destruct H as [H|H]; [|now right; right].
  apply dict_set_items in H. destruct H as [E|H]; [right; left; now symmetry|now left].
Qed.

Lemma dict_comp_items (d : dict A) x :
  In x (dict_comp h d) -> In x (selected h d).
Proof.
  intros H. apply comp_from_items in H. destruct H as [[]|H]. exact H.
Qed.

Lemma dict_comp_keys (d : dict A) k :
  In k (keys (dict_comp h d)) <-> In k (keys (selected h d)).
Proof.
  etransitivity; [apply (comp_from_keys d [] k)|]. simpl. tauto.
Qed.

Lemma selected_keys_incl (d : dict A) k :
  keeps_key h -> In k (keys (selected h d)) -> In k (keys d).
Proof.
  intros Hk. induction d as [|[k0 a] d IH]; simpl; [tauto|].
  destruct (h k0 a) as [[k' b]|] eqn:E; simpl; [|tauto].
  apply Hk in E. subst. tauto.
Qed.

Lemma comp_from_selected (d : dict A) : keeps_key h ->
  NoDup (keys d) -> forall acc,
  (forall k, In k (keys acc) -> ~ In k (keys d)) ->
  fold_left step d acc = (acc ++ selected h d)%list.
Proof.
  intros Hk. induction d as [|[k0 a] d IH]; simpl; intros Hnd acc Hdisj.
  - now rewrite app_nil_r.
  - inversion Hnd as [|? ? Hnotin Hnd']; subst.
    unfold step at 2, comp_step; simpl.
    destruct (h k0 a) as [[k' b]|] eqn:E.
    + pose proof (Hk _ _ _ _ E); subst k'.
      rewrite dict_set_fresh by (intros Hin; apply (Hdisj _ Hin); now left).
      rewrite IH; [now rewrite <- app_assoc|assumption|].
      intros k Hin. unfold keys in Hin. rewrite map_app in Hin.
      apply in_app_or in Hin. destruct Hin as [Hin|[<-|[]]].
      * intros Hd. apply (Hdisj _ Hin). now right.
      * exact Hnotin.
    + apply IH; [assumption|].
      intros k Hin Hd. apply (Hdisj _ Hin). now right.
Qed.

(** Over a dictionary, a key-keeping comprehension is the list of the
    selected items, in the order of the source. *)
Lemma dict_comp_selected (d : dict A) :
  keeps_key h -> NoDup (keys d) -> dict_comp h d = selected h d.
Proof.
  intros Hk Hnd.
  apply (comp_from_selected d Hk Hnd []). simpl. tauto.
Qed.

Lemma dict_get_selected (d : dict A) k :
  keeps_key h -> NoDup (keys d) ->
  dict_get (selected h d) k =
  match dict_get d k with
  | Some a => option_map snd (h k a)
  | None => None
  end.
Proof.
  intros Hk. induction d as [|[k0 a] d IH]; simpl; intros Hnd; [reflexivity|].
  inversion Hnd as [|? ? Hnotin Hnd']; subst.
  destruct (String.eqb_spec k k0) as [->|Hne].
  - destruct (h k0 a) as [[k' b]|] eqn:E; simpl.
    + pose proof (Hk _ _ _ _ E); subst k'. now rewrite String.eqb_refl.
    + rewrite IH by assumption.
      apply dict_get_None in Hnotin. now rewrite Hnotin.
  - destruct (h k0 a) as [[k' b]|] eqn:E; simpl; [|auto].
    pose proof (Hk _ _ _ _ E); subst k'.
    destruct (String.eqb_spec k k0); [congruence|auto].
Qed.

(** Without repeated keys among the selected items, a comprehension is the
    list of these items in the order of the source. *)
Lemma comp_from_distinct (d : dict A) : forall acc,
  NoDup (keys (acc ++ selected h d)%list) ->
  fold_left step d acc = (acc ++ selected h d)%list.
Proof.
  induction d as [|[k0 a] d IH]; simpl; intros acc Hnd.
  - now rewrite app_nil_r.
  - unfold step at 2, comp_step; simpl.
    destruct (h k0 a) as [[k' b]|] eqn:E; [|now apply IH].
    assert (~ In k' (keys acc)) as Hfresh.
    { unfold keys in *. rewrite map_app in Hnd. simpl in Hnd.
      apply NoDup_remove_2 in Hnd. intros Hin. apply Hnd.
      apply in_or_app. now left. }
    rewrite (dict_set_fresh acc k' b Hfresh).
    rewrite IH; rewrite <- app_assoc; [reflexivity|exact Hnd].
Qed.

Lemma dict_comp_distinct (d : dict A) :
  NoDup (keys (selected h d)) -> dict_comp h d = selected h d.
Proof. intros Hnd. exact (comp_from_distinct d [] Hnd). Qed.

(** The last write to a key wins. *)
Lemma comp_from_get (d : dict A) k : forall acc,
  dict_get (fold_left step d acc) k =
  match dict_get (rev (selected h d)) k with
  | Some b => Some b
  | None => dict_get acc k
  end.
Proof.
  induction d as [|[k0 a] d IH]; simpl; intros acc; [reflexivity|].
  rewrite IH. unfold step, comp_step; simpl.
  destruct (h k0 a) as [[k' b]|]; [|reflexivity].
  simpl. rewrite dict_get_app, dict_get_set. simpl.
  destruct (dict_get (rev (selected h d)) k); [reflexivity|].
  destruct (String.eqb k k'); reflexivity.
Qed.

Lemma dict_comp_get (d : dict A) k :
  dict_get (dict_comp h d) k = dict_get (rev (selected h d)) k.
Proof.
  unfold dict_comp. etransitivity; [apply (comp_from_get d k [])|].
  now destruct (dict_get (rev (selected h d)) k).
Qed.

End Comprehension.

End DictFacts.

(** ** The schema differ *)

Section DifferFacts.

Variable upper : string -> string.

Local Abbreviation norm := (normalize upper).

Lemma normalize_NoDup (s : Schema) : NoDup (keys (norm s)).
Proof. apply DictFacts.dict_comp_NoDup. Qed.

Lemma only_in_keeps_key (b : Schema) :
  keeps_key (fun col (t : string) =>
               if dict_mem col b then None else Some (col, t)).
Proof.
  intros k a k' t. destruct (dict_mem k b); [discriminate|].
  intros H. now injection H as <- _.
Qed.

Lemma type_conflicts_keeps_key (new : Schema) :
  keeps_key (fun col old =>
               match dict_get new col with
               | Some nw =>
                   if String.eqb old nw then None else Some (col, (old, nw))
               | None => None
               end).
Proof.
  intros k a k' t. destruct (dict_get new k) as [nw|]; [|discriminate].
  destruct (String.eqb a nw); [discriminate|].
  intros H. now injection H as <- _.
Qed.

(** [col in only_in a b] exactly when [col in a and col not in b]. *)
Lemma dict_mem_only_in (a b : Schema) col :
  NoDup (keys a) ->
  dict_mem col (only_in a b) = dict_mem col a && negb (dict_mem col b).
Proof.
  intros Hnd. unfold only_in.
  rewrite DictFacts.dict_comp_selected by first [apply only_in_keeps_key | assumption].
  rewrite (DictFacts.dict_mem_get col (selected _ a)), (DictFacts.dict_mem_get col a).
  rewrite DictFacts.dict_get_selected by first [apply only_in_keeps_key | assumption].
  destruct (dict_get a col); [|reflexivity].
  destruct (dict_mem col b); reflexivity.
Qed.

Lemma dict_mem_type_conflicts (a b : Schema) col :
  NoDup (keys a) ->
  dict_mem col (type_conflicts a b) =
  match dict_get a col, dict_get b col with
  | Some old, Some nw => negb (String.eqb old nw)
  | _, _ => false
  end.
Proof.
  intros Hnd. unfold type_conflicts.
  rewrite DictFacts.dict_comp_selected by first [apply type_conflicts_keeps_key | assumption].
  rewrite DictFacts.dict_mem_get.
  rewrite DictFacts.dict_get_selected by first [apply type_conflicts_keeps_key | assumption].
  destruct (dict_get a col) as [old|]; [|reflexivity].
  destruct (dict_get b col) as [nw|]; [|reflexivity].
  destruct (String.eqb old nw); reflexivity.
Qed.

(** A comprehension whose filter rejects every item is empty. *)
Lemma dict_comp_rejects {A B : Type} (h : string -> A -> option (string * B))
    (d : dict A) :
  (forall k a, In (k, a) d -> h k a = None) -> dict_comp h d = [].
Proof.
  unfold dict_comp. generalize (@nil (string * B)).
  induction d as [|[k a] d IH]; simpl; intros acc H; [reflexivity|].
  unfold comp_step at 2; simpl. rewrite (H k a) by now left.
  apply IH. intros k' a' Hin. apply H. now right.
Qed.

Lemma only_in_self (a : Schema) : only_in a a = [].
Proof.
  apply dict_comp_rejects. intros k t Hin.
  apply (in_map fst) in Hin. apply DictFacts.dict_mem_In in Hin.
  simpl in Hin. now rewrite Hin.
Qed.

Lemma type_conflicts_self (a : Schema) :
  NoDup (keys a) -> type_conflicts a a = [].
Proof.
  intros Hnd. apply dict_comp_rejects. intros k t Hin.
  rewrite (DictFacts.dict_get_item a k t Hnd Hin).
  now rewrite String.eqb_refl.
Qed.

(** C5. Comparing a schema with itself reports nothing: no added column,
    no removed column, no type conflict. *)
Theorem compare_schemas_self (a : Schema) :
  compare_schemas upper a a = ([], [], []).
Proof.
  unfold compare_schemas.
  rewrite only_in_self, type_conflicts_self by apply normalize_NoDup.
  reflexivity.
Qed.

(** C6. Swapping the two schemas swaps Added and Removed: the added
    columns of [compare_schemas a b] are the removed columns of
    [compare_schemas b a], and the other way round, as mappings and in
    the same order. *)
Theorem compare_schemas_swap (a b : Schema) :
  added upper a b = removed upper b a /\
  removed upper a b = added upper b a.
Proof. split; reflexivity. Qed.

Lemma dict_mem_added (existing new : Schema) col :
  dict_mem col (added upper existing new) =
  dict_mem col (norm new) && negb (dict_mem col (norm existing)).
Proof. apply dict_mem_only_in, normalize_NoDup. Qed.

Lemma dict_mem_removed (existing new : Schema) col :
  dict_mem col (removed upper existing new) =
  dict_mem col (norm existing) && negb (dict_mem col (norm new)).
Proof. apply dict_mem_only_in, normalize_NoDup. Qed.

Lemma dict_mem_conflicted (existing new : Schema) col :
  dict_mem col (conflicted upper existing new) =
  match dict_get (norm existing) col, dict_get (norm new) col with
  | Some old, Some nw => negb (String.eqb old nw)
  | _, _ => false
  end.
Proof. apply dict_mem_type_conflicts, normalize_NoDup. Qed.

(** C1. The key sets of Added, Removed and Conflicted are pairwise
    disjoint, and a column falls into exactly one of Added, Removed,
    Conflicted and Unchanged when it is a key of either normalized schema
    (and into none of them otherwise). *)
Theorem compare_schemas_partition (existing new : Schema) :
  (forall col, dict_mem col (added upper existing new) &&
               dict_mem col (removed upper existing new) = false) /\
  (forall col, dict_mem col (added upper existing new) &&
               dict_mem col (conflicted upper existing new) = false) /\
  (forall col, dict_mem col (removed upper existing new) &&
               dict_mem col (conflicted upper existing new) = false) /\
  (forall col, class_count upper existing new col =
               if dict_mem col (norm existing) || dict_mem col (norm new)
               then 1 else 0).
Proof.
  repeat split; intros col; unfold class_count, unchanged;
    rewrite ?dict_mem_added, ?dict_mem_removed, ?dict_mem_conflicted;
    unfold dict_mem;
    destruct (dict_get (norm existing) col) as [old|];
    destruct (dict_get (norm new) col) as [nw|]; simpl;
    try reflexivity;
    destruct (String.eqb old nw); reflexivity.
Qed.

End DifferFacts.

(** Normalization renames the keys and stores the types as given. *)
Lemma normalize_items (upper : string -> string) (s : Schema) k t :
  In (k, t) (normalize upper s) -> exists k0, In (k0, t) s /\ upper k0 = k.
Proof.
  intros H. apply DictFacts.dict_comp_items in H.
  induction s as [|[k0 t0] s IH]; simpl in H; [contradiction|].
  destruct H as [E|H].
  - injection E as <- <-. exists k0. split; [now left|reflexivity].
  - destruct (IH H) as (k1 & Hin & E). exists k1. split; [now right|exact E].
Qed.

(** C10. Types are compared as exact strings, as they were given:
    normalization upper-cases the keys and leaves every type untouched, a
    column of both schemas is in Conflicted exactly when its two types
    differ as strings, and so [text] against [TEXT] is a conflict. *)
Theorem type_equality_is_exact :
  (forall upper s k t,
      In (k, t) (normalize upper s) -> exists k0, In (k0, t) s /\ upper k0 = k) /\
  (forall upper existing new col,
      dict_mem col (conflicted upper existing new) =
      match dict_get (normalize upper existing) col,
            dict_get (normalize upper new) col with
      | Some old, Some nw => negb (String.eqb old nw)
      | _, _ => false
      end) /\
  (forall upper col,
      compare_schemas upper [(col, "text")] [(col, "TEXT")] =
      ([], [], [(upper col, ("text", "TEXT"))])) /\
  compare_schemas ascii_upper [("a", "text")] [("A", "TEXT")] =
  ([], [], [("A", ("text", "TEXT"))]).
Proof.
  split; [exact normalize_items|].
  split; [exact dict_mem_conflicted|].
  split; [|reflexivity].
  intros upper col.
  unfold compare_schemas, only_in, type_conflicts, normalize, dict_comp, comp_step,
    dict_mem; simpl.
  rewrite String.eqb_refl. reflexivity.
Qed.

(** ** Strings *)

Module StrFacts.

Lemma append_empty_inv (a b : string) : a ++ b = "" -> a = "".
Proof. destruct a; [reflexivity|discriminate]. Qed.

Lemma has_char_app c (a b : string) :
  has_char c (a ++ b) = has_char c a || has_char c b.
Proof.
  induction a as [|x a IH]; simpl; [reflexivity|].
  now rewrite IH, orb_assoc.
Qed.

(** A character foreign to the needle cuts every match. *)
Lemma startswith_sep (n : string) c (b : string) : forall a,
  has_char c n = false ->
  startswith n (a ++ String c b) = startswith n a.
Proof.
  induction n as [|m n IH]; intros a Hc; [now destruct a|].
  simpl in Hc. apply orb_false_iff in Hc. destruct Hc as [Hm Hn].
  destruct a as [|x a]; simpl.
  - now rewrite Hm.
  - now rewrite IH.
Qed.

Lemma str_in_sep (n : string) c (a b : string) :
  n <> "" -> has_char c n = false ->
  str_in n (a ++ String c b) = str_in n a || str_in n b.
Proof.
  intros Hn Hc. induction a as [|x a IH].
  - destruct n as [|m n]; [congruence|].
    simpl in Hc. apply orb_false_iff in Hc. destruct Hc as [Hm _].
    cbn [append str_in startswith]. now rewrite Hm.
  - cbn [append str_in].
    change (String x (a ++ String c b)) with (String x a ++ String c b).
    rewrite (startswith_sep n c b (String x a) Hc), IH.
    now rewrite orb_assoc.
Qed.



Lemma lines_single (x : string) : has_char newline x = false -> lines x = [x].
Proof.
  induction x as [|c x IH]; simpl; [reflexivity|].
  intros H. apply orb_false_iff in H. destruct H as [Hc Hx].
  rewrite Hc, (IH Hx). reflexivity.
Qed.

Lemma lines_app_nl (x r : string) :
  has_char newline x = false -> lines (x ++ nl ++ r) = x :: lines r.
Proof.
  induction x as [|c x IH]; simpl; [reflexivity|].
  intros H. apply orb_false_iff in H. destruct H as [Hc Hx].
  rewrite Hc. simpl in IH. rewrite (IH Hx). reflexivity.
Qed.

(** Splitting a joined text at the line breaks gives back the entries,
    when no entry holds a line break. *)
Lemma lines_join (l : list string) :
  l <> [] -> (forall x, In x l -> has_char newline x = false) ->
  lines (join nl l) = l.
Proof.
  induction l as [|x l IH]; [congruence|]. intros _ H.
  destruct l as [|y l].
  - simpl. apply lines_single, H. now left.
  - change (join nl (x :: y :: l)) with (x ++ nl ++ join nl (y :: l)).
    rewrite lines_app_nl by (apply H; now left).
    f_equal. apply IH; [discriminate|]. intros z Hz. apply H. now right.
Qed.

Lemma join_nonempty sep (x : string) (l : list string) :
  x <> "" -> join sep (x :: l) <> "".
Proof.
  intros Hx. destruct l as [|y l]; simpl; [exact Hx|].
  intros E. apply append_empty_inv in E. contradiction.
Qed.

End StrFacts.

(** ** The SQL generator *)

Section GeneratorFacts.

Variable upper : string -> string.

Local Abbreviation norm := (normalize upper).

Lemma append_each_map {A : Type} (f : A -> string) (xs : list A) :
  forall acc, append_each f xs acc = (acc ++ map f xs)%list.
Proof.
  unfold append_each. induction xs as [|x xs IH]; simpl; intros acc.
  - now rewrite app_nil_r.
  - rewrite IH. now rewrite <- app_assoc.
Qed.

(** The three loops fill [sql_statements] category by category. *)
Lemma sql_statements_layout (existing new : Schema) (table_name : string) :
  sql_statements upper existing new table_name =
  (map (add_column_stmt table_name) (added upper existing new) ++
   map missing_note (removed upper existing new) ++
   map (alter_type_stmt table_name) (conflicted upper existing new))%list.
Proof.
  unfold sql_statements, added, removed, conflicted.
  destruct (compare_schemas upper existing new) as [[new_cols missing_cols] conflicts].
  simpl. rewrite !append_each_map. simpl. now rewrite app_assoc.
Qed.

Lemma sql_statements_nonempty (existing new : Schema) (table_name line : string) :
  In line (sql_statements upper existing new table_name) -> line <> "".
Proof.
  rewrite sql_statements_layout. rewrite !in_app_iff, !in_map_iff.
  intros [(x & <- & _)|[(x & <- & _)|(x & <- & _)]]; discriminate.
Qed.

Lemma added_selected (existing new : Schema) :
  added upper existing new =
  selected (fun col t => if dict_mem col (norm existing) then None else Some (col, t))
           (norm new).
Proof.
  apply DictFacts.dict_comp_selected;
    [apply only_in_keeps_key|apply normalize_NoDup].
Qed.

Lemma removed_selected (existing new : Schema) :
  removed upper existing new =
  selected (fun col t => if dict_mem col (norm new) then None else Some (col, t))
           (norm existing).
Proof.
  apply DictFacts.dict_comp_selected;
    [apply only_in_keeps_key|apply normalize_NoDup].
Qed.

Lemma conflicted_selected (existing new : Schema) :
  conflicted upper existing new =
  selected (fun col old =>
              match dict_get (norm new) col with
              | Some nw =>
                  if String.eqb old nw then None else Some (col, (old, nw))
              | None => None
              end)
           (norm existing).
Proof.
  apply DictFacts.dict_comp_selected;
    [apply type_conflicts_keeps_key|apply normalize_NoDup].
Qed.

Lemma added_items (existing new : Schema) col t :
  In (col, t) (added upper existing new) -> In (col, t) (norm new).
Proof.
  rewrite added_selected. generalize (norm new) as d.
  induction d as [|[k v] d IH]; simpl; [tauto|].
  destruct (dict_mem k (norm existing)); simpl; [auto|].
  intros [E|H]; auto.
Qed.

Lemma removed_items (existing new : Schema) col t :
  In (col, t) (removed upper existing new) -> In (col, t) (norm existing).
Proof.
  rewrite removed_selected. generalize (norm existing) as d.
  induction d as [|[k v] d IH]; simpl; [tauto|].
  destruct (dict_mem k (norm new)); simpl; [auto|].
  intros [E|H]; auto.
Qed.

(** A conflict pairs the type of the existing schema with the type of the
    candidate. *)
Lemma conflicted_items (existing new : Schema) col old nw :
  In (col, (old, nw)) (conflicted upper existing new) ->
  In (col, old) (norm existing) /\ dict_get (norm new) col = Some nw.
Proof.
  rewrite conflicted_selected. generalize (norm existing) as d.
  induction d as [|[k v] d IH]; simpl; [tauto|].
  destruct (dict_get (norm new) k) as [nw'|] eqn:E.
  - destruct (String.eqb v nw'); simpl.
    + intros H. destruct (IH H). auto.
    + intros [H|H].
      * injection H as -> -> ->. auto.
      * destruct (IH H). auto.
  - intros H. destruct (IH H). auto.
Qed.

(** C4. On an empty diff the generator returns the fixed advisory comment
    that no change is needed, and on no input does it return the empty
    string. *)
Theorem generate_sql_never_empty :
  (forall existing new table_name,
      added upper existing new = [] ->
      removed upper existing new = [] ->
      conflicted upper existing new = [] ->
      generate_sql_with_ai upper existing new table_name =
      "-- No schema changes detected. No ALTER TABLE needed.") /\
  (forall existing new table_name,
      generate_sql_with_ai upper existing new table_name <> "").
Proof.
  split; intros existing new table_name.
  - intros Ha Hr Hc. unfold generate_sql_with_ai.
    rewrite sql_statements_layout, Ha, Hr, Hc. reflexivity.
  - unfold generate_sql_with_ai.
    pose proof (sql_statements_nonempty existing new table_name) as Hne.
    destruct (sql_statements upper existing new table_name) as [|x l].
    + discriminate.
    + apply StrFacts.join_nonempty. apply Hne. now left.
Qed.

(** C7. On a non-empty diff the output is, joined by line breaks and in
    this order: one [ADD COLUMN ... NULL] statement per Added column, one
    advisory comment per Removed column, one [ALTER COLUMN ... SET DATA
    TYPE] statement per Conflicted column with the type of the candidate as
    its target.  Within a category the entries follow the items of the
    normalized schema they are selected from: the candidate for Added, the
    existing schema for Removed and Conflicted. *)
Theorem generate_sql_layout (existing new : Schema) (table_name : string) :
  is_empty (added upper existing new) && is_empty (removed upper existing new)
    && is_empty (conflicted upper existing new) = false ->
  generate_sql_with_ai upper existing new table_name =
  join nl
    (map (fun item => ("ALTER TABLE " ++ table_name ++ " ADD COLUMN " ++ fst item
                       ++ " " ++ snd item ++ " NULL;")%string)
         (added upper existing new) ++
     map (fun item => ("-- NOTE: Column " ++ fst item ++ " (" ++ snd item
                       ++ ") exists in old schema but not in new. Drop only if intentional.")%string)
         (removed upper existing new) ++
     map (fun item => ("ALTER TABLE " ++ table_name ++ " ALTER COLUMN " ++ fst item
                       ++ " SET DATA TYPE " ++ snd (snd item) ++ ";")%string)
         (conflicted upper existing new))%list /\
  (forall col old nw,
      In (col, (old, nw)) (conflicted upper existing new) ->
      dict_get (norm existing) col = Some old /\
      dict_get (norm new) col = Some nw) /\
  added upper existing new =
    selected (fun col t => if dict_mem col (norm existing) then None else Some (col, t))
             (norm new) /\
  removed upper existing new =
    selected (fun col t => if dict_mem col (norm new) then None else Some (col, t))
             (norm existing) /\
  conflicted upper existing new =
    selected (fun col old =>
                match dict_get (norm new) col with
                | Some nw =>
                    if String.eqb old nw then None else Some (col, (old, nw))
                | None => None
                end)
             (norm existing).
Proof.
  intros Hdiff. split; [|split; [|split; [|split]]].
  - unfold generate_sql_with_ai. rewrite sql_statements_layout.
    fold (add_column_stmt table_name) missing_note (alter_type_stmt table_name).
    destruct (added upper existing new) as [|a la]; [|reflexivity].
    destruct (removed upper existing new) as [|r lr]; [|reflexivity].
    destruct (conflicted upper existing new) as [|c lc]; [|reflexivity].
    discriminate.
  - intros col old nw H. apply conflicted_items in H. destruct H as [H1 H2].
    split; [|exact H2].
    apply DictFacts.dict_get_item; [apply normalize_NoDup|exact H1].
  - apply added_selected.
  - apply removed_selected.
  - apply conflicted_selected.
Qed.

End GeneratorFacts.

Lemma generate_sql_never_empty_witness :
  generate_sql_with_ai ascii_upper [("id", "NUMBER")] [("ID", "NUMBER")] "T" =
  "-- No schema changes detected. No ALTER TABLE needed.".
Proof.
  apply (proj1 (generate_sql_never_empty ascii_upper)); reflexivity.
Defined.

Lemma generate_sql_layout_witness :
  generate_sql_with_ai ascii_upper
    [("a", "TEXT"); ("c", "FLOAT")] [("A", "NUMBER"); ("b", "TEXT")] "T" =
  "ALTER TABLE T ADD COLUMN B TEXT NULL;" ++ nl ++
  "-- NOTE: Column C (FLOAT) exists in old schema but not in new. Drop only if intentional."
  ++ nl ++ "ALTER TABLE T ALTER COLUMN A SET DATA TYPE NUMBER;".
Proof.
  refine (eq_trans
            (proj1 (generate_sql_layout ascii_upper
                      [("a", "TEXT"); ("c", "FLOAT")]
                      [("A", "NUMBER"); ("b", "TEXT")] "T" _)) _);
    reflexivity.
Defined.

(** ** Names that reach the generated SQL *)

Section CleanNames.

Variable upper : string -> string.

Local Abbreviation norm := (normalize upper).

Lemma clean_iff (s : string) :
  clean s = true <-> has_char newline s = false /\ str_in "DROP" s = false.
Proof.
  unfold clean. rewrite andb_true_iff, !negb_true_iff. tauto.
Qed.

Ltac split_clean :=
  repeat match goal with
         | H : clean _ = true |- _ => apply clean_iff in H; destruct H
         end;
  apply clean_iff; split.

Ltac no_line_break :=
  cbn [fst snd]; rewrite !StrFacts.has_char_app;
  repeat match goal with
         | H : has_char newline _ = false |- _ => rewrite H
         end;
  reflexivity.

Ltac no_drop :=
  rewrite !StrFacts.str_in_sep by (discriminate || reflexivity);
  repeat match goal with
         | H : str_in "DROP" _ = false |- _ => rewrite H
         end;
  reflexivity.

Lemma add_column_stmt_clean (table_name col t : string) :
  clean table_name = true -> clean col = true -> clean t = true ->
  clean (add_column_stmt table_name (col, t)) = true.
Proof.
  intros Ht Hc Hty. unfold add_column_stmt. split_clean.
  - no_line_break.
  - change (str_in "DROP"
              ("ALTER TABLE" ++ String " " (table_name ++ String " "
                 ("ADD COLUMN" ++ String " " (col ++ String " "
                    (t ++ String " " "NULL;"))))) = false).
    no_drop.
Qed.

Lemma missing_note_clean (col t : string) :
  clean col = true -> clean t = true -> clean (missing_note (col, t)) = true.
Proof.
  intros Hc Hty. unfold missing_note. split_clean.
  - no_line_break.
  - change (str_in "DROP"
              ("-- NOTE: Column" ++ String " " (col ++ String " "
                 ("" ++ String "(" (t ++ String ")"
                    " exists in old schema but not in new. Drop only if intentional."))))
            = false).
    no_drop.
Qed.

Lemma alter_type_stmt_clean (table_name col old nw : string) :
  clean table_name = true -> clean col = true -> clean nw = true ->
  clean (alter_type_stmt table_name (col, (old, nw))) = true.
Proof.
  intros Ht Hc Hty. unfold alter_type_stmt. split_clean.
  - no_line_break.
  - change (str_in "DROP"
              ("ALTER TABLE" ++ String " " (table_name ++ String " "
                 ("ALTER COLUMN" ++ String " " (col ++ String " "
                    ("SET DATA TYPE" ++ String " " (nw ++ String ";" "")))))) = false).
    no_drop.
Qed.

Lemma clean_normalized (s : Schema) k t :
  clean_schema upper s -> In (k, t) (norm s) -> clean k = true /\ clean t = true.
Proof.
  intros Hs Hin. apply normalize_items in Hin.
  destruct Hin as (k0 & Hin & <-). exact (Hs _ _ Hin).
Qed.

Lemma sql_statements_clean (existing new : Schema) (table_name line : string) :
  clean table_name = true -> clean_schema upper existing -> clean_schema upper new ->
  In line (sql_statements upper existing new table_name) -> clean line = true.
Proof.
  intros Ht He Hn. rewrite sql_statements_layout.
  rewrite !in_app_iff, !in_map_iff.
  intros [([col t] & <- & Hin)|[([col t] & <- & Hin)|([col [old nw]] & <- & Hin)]].
  - apply added_items, (clean_normalized new) in Hin; [|exact Hn].
    destruct Hin. now apply add_column_stmt_clean.
  - apply removed_items, (clean_normalized existing) in Hin; [|exact He].
    destruct Hin. now apply missing_note_clean.
  - apply conflicted_items in Hin. destruct Hin as [Hold Hnew].
    apply (clean_normalized existing) in Hold; [|exact He].
    apply DictFacts.dict_get_In, (clean_normalized new) in Hnew; [|exact Hn].
    destruct Hold, Hnew. now apply alter_type_stmt_clean.
Qed.

(** With clean names the lines of the output are the entries of
    [sql_statements], or the one advisory comment when there is none. *)
Lemma generate_sql_lines (existing new : Schema) (table_name : string) :
  clean table_name = true -> clean_schema upper existing -> clean_schema upper new ->
  lines (generate_sql_with_ai upper existing new table_name) =
  match sql_statements upper existing new table_name with
  | [] => [no_change_sql]
  | x :: l => x :: l
  end.
Proof.
  intros Ht He Hn. unfold generate_sql_with_ai.
  pose proof (sql_statements_clean existing new table_name) as Hclean.
  destruct (sql_statements upper existing new table_name) as [|x l];
    [reflexivity|].
  apply StrFacts.lines_join; [discriminate|].
  intros y Hy. now apply clean_iff, Hclean.
Qed.

End CleanNames.




(** ** The explanation delegator *)

(** C3, as amended.  On an empty diff [explain_changes_with_ai] sends no
    prompt to [chat_llm] and returns the static message, which names the
    table: it is the same for every capability and every pair of schemas
    with an empty diff, for one table name. *)
Theorem explain_no_change (upper : string -> string)
    (chat_llm : string -> outcome pyval) (existing new : Schema)
    (table_name : string) :
  added upper existing new = [] ->
  removed upper existing new = [] ->
  conflicted upper existing new = [] ->
  explain_changes_with_ai upper chat_llm existing new table_name =
  (Returns
     (VStr ("✅ No schema changes detected for table `" ++ table_name ++ "`.  "
            ++ nl ++ "Both existing and candidate schemas are identical.  "
            ++ nl ++ "No risks, conflicts, or SQL migrations are required.")),
   []).
Proof.
  unfold added, removed, conflicted, explain_changes_with_ai.
  destruct (compare_schemas upper existing new) as [[new_cols missing_cols] conflicts].
  simpl. intros -> -> ->. reflexivity.
Qed.

Lemma explain_no_change_witness :
  explain_changes_with_ai ascii_upper (fun _ => Raises TypeError)
    [("id", "NUMBER")] [("ID", "NUMBER")] "ORDERS" =
  (Returns
     (VStr ("✅ No schema changes detected for table `ORDERS`.  "
            ++ nl ++ "Both existing and candidate schemas are identical.  "
            ++ nl ++ "No risks, conflicts, or SQL migrations are required.")),
   []).
Proof.
  apply (explain_no_change ascii_upper (fun _ => Raises TypeError)
           [("id", "NUMBER")] [("ID", "NUMBER")] "ORDERS"); reflexivity.
Defined.

(** C3, the claim as stated fails: on an empty diff the message differs
    between two table names. *)
Lemma no_change_message_names_the_table :
  fst (explain_changes_with_ai ascii_upper (fun _ => Raises TypeError)
         [] [] "ORDERS") <>
  fst (explain_changes_with_ai ascii_upper (fun _ => Raises TypeError)
         [] [] "USERS").
Proof. vm_compute. intros H. discriminate H. Qed.

(** A non-empty diff sends exactly one prompt and returns what [chat_llm]
    does with it. *)
Lemma explain_delegates (upper : string -> string)
    (chat_llm : string -> outcome pyval) (existing new : Schema)
    (table_name : string) :
  is_empty (added upper existing new) && is_empty (removed upper existing new)
    && is_empty (conflicted upper existing new) = false ->
  explain_changes_with_ai upper chat_llm existing new table_name =
  (chat_llm (explain_prompt existing new table_name),
   [explain_prompt existing new table_name]).
Proof.
  unfold added, removed, conflicted, explain_changes_with_ai.
  destruct (compare_schemas upper existing new) as [[new_cols missing_cols] conflicts].
  simpl. intros ->. reflexivity.
Qed.

(** ** Schema inference *)

Section InferFacts.

Variable upper : string -> string.

Lemma infer_schema_as_comp (df : DataFrame) :
  infer_schema_from_df upper df =
  dict_comp (fun k d => Some (upper k, canonical_type d))
            (map (fun c => (label c, dtype c)) df).
Proof.
  unfold infer_schema_from_df, dict_comp. generalize (@nil (string * string)).
  induction df as [|c df IH]; simpl; intros acc; [reflexivity|].
  rewrite <- IH. f_equal. unfold comp_step, canonical_type; simpl.
  destruct (str_in "int" (dtype c)); [reflexivity|].
  destruct (str_in "float" (dtype c)); [reflexivity|].
  destruct (str_in "bool" (dtype c)); [reflexivity|].
  destruct (str_in "datetime" (dtype c) || str_in "date" (dtype c)); reflexivity.
Qed.

Lemma infer_selected (df : DataFrame) :
  selected (fun k d => Some (upper k, canonical_type d))
           (map (fun c => (label c, dtype c)) df) =
  map (fun c => (upper (label c), canonical_type (dtype c))) df.
Proof. induction df as [|c df IH]; simpl; [reflexivity|now rewrite IH]. Qed.

(** When two labels collide after upper-casing, the later column wins. *)
Lemma infer_last_write_wins (df : DataFrame) k :
  dict_get (infer_schema_from_df upper df) k =
  dict_get (rev (map (fun c => (upper (label c), canonical_type (dtype c))) df)) k.
Proof.
  rewrite infer_schema_as_comp, DictFacts.dict_comp_get. now rewrite infer_selected.
Qed.

(** On the columns of a frame with string labels: each column gets exactly
    one type, chosen by the first test that
    matches the name of its dtype: [int] gives NUMBER, else [float] gives
    FLOAT, else [bool] gives BOOLEAN, else [datetime] or [date] gives
    TIMESTAMP_NTZ, else TEXT.  The column names of the schema are the
    upper-cased labels, a frame without columns gives the empty schema, and
    when the upper-cased labels are distinct the schema lists every column
    with its type, in the order of the frame. *)
Theorem infer_schema_classifies :
  (forall d, str_in "int" d = true -> canonical_type d = "NUMBER") /\
  (forall d, str_in "int" d = false -> str_in "float" d = true ->
             canonical_type d = "FLOAT") /\
  (forall d, str_in "int" d = false -> str_in "float" d = false ->
             str_in "bool" d = true -> canonical_type d = "BOOLEAN") /\
  (forall d, str_in "int" d = false -> str_in "float" d = false ->
             str_in "bool" d = false ->
             str_in "datetime" d || str_in "date" d = true ->
             canonical_type d = "TIMESTAMP_NTZ") /\
  (forall d, str_in "int" d = false -> str_in "float" d = false ->
             str_in "bool" d = false ->
             str_in "datetime" d || str_in "date" d = false ->
             canonical_type d = "TEXT") /\
  map canonical_type ["int64"; "float64"; "bool"; "datetime64[ns]"; "object"] =
    ["NUMBER"; "FLOAT"; "BOOLEAN"; "TIMESTAMP_NTZ"; "TEXT"] /\
  infer_schema_from_df upper [] = [] /\
  (forall df, NoDup (keys (infer_schema_from_df upper df))) /\
  (forall df k, In k (keys (infer_schema_from_df upper df)) <->
                exists c, In c df /\ k = upper (label c)) /\
  (forall df k t, dict_get (infer_schema_from_df upper df) k = Some t ->
                  exists c, In c df /\ k = upper (label c) /\
                            t = canonical_type (dtype c)) /\
  (forall df, NoDup (map (fun c => upper (label c)) df) ->
              infer_schema_from_df upper df =
              map (fun c => (upper (label c), canonical_type (dtype c))) df).
Proof.
  repeat match goal with |- _ /\ _ => split end.
  - intros d H. unfold canonical_type. now rewrite H.
  - intros d H1 H2. unfold canonical_type. now rewrite H1, H2.
  - intros d H1 H2 H3. unfold canonical_type. now rewrite H1, H2, H3.
  - intros d H1 H2 H3 H4. unfold canonical_type. now rewrite H1, H2, H3, H4.
  - intros d H1 H2 H3 H4. unfold canonical_type. now rewrite H1, H2, H3, H4.
  - reflexivity.
  - reflexivity.
  - intros df. rewrite infer_schema_as_comp. apply DictFacts.dict_comp_NoDup.
  - intros df k. rewrite infer_schema_as_comp, DictFacts.dict_comp_keys, infer_selected.
    unfold keys. rewrite map_map, in_map_iff. simpl.
    split; intros (c & H1 & H2); exists c; auto.
  - intros df k t H. rewrite infer_last_write_wins in H.
    apply DictFacts.dict_get_In, in_rev, in_map_iff in H.
    destruct H as (c & E & Hin). injection E as <- <-. exists c. auto.
  - intros df Hnd. rewrite infer_schema_as_comp, <- infer_selected.
    apply DictFacts.dict_comp_distinct. rewrite infer_selected.
    unfold keys. now rewrite map_map.
Qed.

End InferFacts.

Lemma infer_schema_classifies_witness :
  infer_schema_from_df ascii_upper
    [mkColumn "id" "int64"; mkColumn "price" "float64";
     mkColumn "active" "bool"; mkColumn "created" "datetime64[ns]";
     mkColumn "name" "object"] =
  [("ID", "NUMBER"); ("PRICE", "FLOAT"); ("ACTIVE", "BOOLEAN");
   ("CREATED", "TIMESTAMP_NTZ"); ("NAME", "TEXT")].
Proof.
  refine (eq_trans
            (proj2 (proj2 (proj2 (proj2 (proj2 (proj2 (proj2 (proj2 (proj2 (proj2
               (infer_schema_classifies ascii_upper)))))))))) _ _) _).
  - vm_compute. repeat constructor; simpl; intuition discriminate.
  - reflexivity.
Defined.

(** ** The text-generation boundary *)

Section LlmFacts.

Variable exn_str : exn -> string.
Variable py_str : pyval -> string.

(** The [remote] branch and the fallback branch turn every failure into a
    returned value. *)
Lemma chat_llm_remote_returns (cfg : Config) (net : Backends) (prompt : string) :
  LLM_PROVIDER cfg <> "ollama" ->
  exists v, chat_llm exn_str py_str cfg net prompt = Returns v.
Proof.
  intros Hp. unfold chat_llm.
  destruct (String.eqb_spec (LLM_PROVIDER cfg) "ollama") as [E|_]; [contradiction|].
  destruct (String.eqb (LLM_PROVIDER cfg) "remote"); [|eexists; reflexivity].
  destruct (String.eqb (LLM_ENDPOINT cfg) "" || String.eqb (LLM_API_KEY cfg) "");
    [eexists; reflexivity|].
  unfold try_except.
  match goal with
  | |- exists v, match ?body with _ => _ end = _ => destruct body
  end; eexists; reflexivity.
Qed.

(** With the [remote] provider an unreachable endpoint becomes text. *)
Lemma chat_llm_remote_unreachable (endpoint api_key model prompt : string)
    (e : exn) (chat : string -> string -> outcome pyval) :
  endpoint <> "" -> api_key <> "" ->
  chat_llm exn_str py_str (mkConfig "remote" endpoint api_key model)
    (mkBackends chat (fun _ _ _ => Raises e)) prompt =
  Returns (VStr ("❌ Error calling Hugging Face API: " ++ exn_str e)).
Proof.
  intros He Hk. unfold chat_llm. simpl.
  destruct (String.eqb_spec endpoint "") as [|_]; [contradiction|].
  destruct (String.eqb_spec api_key "") as [|_]; [contradiction|].
  reflexivity.
Qed.

(** C9, on the code: with the provider [ollama], the default, a failure of
    [ollama.chat] leaves [chat_llm] as the exception it raised, and so does
    a response without the [message] field; no branch of the [ollama] path
    turns a failure into text. *)
Theorem chat_llm_ollama_raises (endpoint api_key model prompt : string)
    (e : exn) (post : string -> string -> string -> outcome Response) :
  chat_llm exn_str py_str (mkConfig "ollama" endpoint api_key model)
    (mkBackends (fun _ _ => Raises e) post) prompt = Raises e /\
  chat_llm exn_str py_str (mkConfig "ollama" endpoint api_key model)
    (mkBackends (fun _ _ => Returns (VDict [])) post) prompt =
  Raises (KeyError "message").
Proof. split; reflexivity. Qed.

End LlmFacts.

(** ** Worked examples *)

Example diff_added_column :
  compare_schemas ascii_upper [("A", "TEXT")] [("A", "TEXT"); ("B", "NUMBER")] =
  ([("B", "NUMBER")], [], []) /\
  generate_sql_with_ai ascii_upper [("A", "TEXT")] [("A", "TEXT"); ("B", "NUMBER")] "T" =
  "ALTER TABLE T ADD COLUMN B NUMBER NULL;".
Proof. split; vm_compute; reflexivity. Qed.

Example diff_removed_and_conflicting_column :
  compare_schemas ascii_upper [("A", "TEXT"); ("C", "FLOAT")] [("A", "NUMBER")] =
  ([], [("C", "FLOAT")], [("A", ("TEXT", "NUMBER"))]) /\
  generate_sql_with_ai ascii_upper [("A", "TEXT"); ("C", "FLOAT")] [("A", "NUMBER")] "T" =
  "-- NOTE: Column C (FLOAT) exists in old schema but not in new. Drop only if intentional."
  ++ nl ++ "ALTER TABLE T ALTER COLUMN A SET DATA TYPE NUMBER;".
Proof. split; vm_compute; reflexivity. Qed.

(** Keys that collide after upper-casing: the first keeps its place, the
    last gives the type. *)
Example normalize_collision :
  normalize ascii_upper [("id", "NUMBER"); ("name", "TEXT"); ("ID", "FLOAT")] =
  [("ID", "FLOAT"); ("NAME", "TEXT")].
Proof. vm_compute. reflexivity. Qed.

(** Names of pandas dtypes that the substring tests read by their letters. *)
Example canonical_type_by_substring :
  map canonical_type ["Int64"; "Float64"; "interval[float64, right]"; "boolean"] =
  ["TEXT"; "TEXT"; "NUMBER"; "BOOLEAN"].
Proof. vm_compute. reflexivity. Qed.

Example format_schema_sorted :
  _format_schema [("B", "NUMBER"); ("A", "TEXT")] =
  "- A: TEXT" ++ nl ++ "- B: NUMBER".
Proof. vm_compute. reflexivity. Qed.

(** A decoded body of the list-of-dicts shape: its [generated_text] is
    what [chat_llm] returns. *)
Example chat_llm_remote_generated_text :
  chat_llm (fun _ => "") (fun _ => "")
    (mkConfig "remote" "https://example.invalid/model" "key" "")
    (mkBackends (fun _ _ => Raises TypeError)
       (fun _ _ _ =>
          Returns (mkResponse 200 ""
                     (Returns (VList [VDict [("generated_text", VStr "ok")]])))))
    "hi" = Returns (VStr "ok").
Proof. vm_compute. reflexivity. Qed.

(** ** More on the differ *)

Section DifferMore.

Variable upper : string -> string.

Local Abbreviation norm := (normalize upper).

Lemma dict_get_added (existing new : Schema) col :
  dict_get (added upper existing new) col =
  if dict_mem col (norm existing) then None else dict_get (norm new) col.
Proof.
  rewrite added_selected.
  rewrite DictFacts.dict_get_selected
    by first [apply only_in_keeps_key | apply normalize_NoDup].
  destruct (dict_get (norm new) col); destruct (dict_mem col (norm existing));
    reflexivity.
Qed.

Lemma dict_get_removed (existing new : Schema) col :
  dict_get (removed upper existing new) col =
  if dict_mem col (norm new) then None else dict_get (norm existing) col.
Proof.
  rewrite removed_selected.
  rewrite DictFacts.dict_get_selected
    by first [apply only_in_keeps_key | apply normalize_NoDup].
  destruct (dict_get (norm existing) col); destruct (dict_mem col (norm new));
    reflexivity.
Qed.

Lemma dict_get_conflicted (existing new : Schema) col :
  dict_get (conflicted upper existing new) col =
  match dict_get (norm existing) col, dict_get (norm new) col with
  | Some old, Some nw => if String.eqb old nw then None else Some (old, nw)
  | _, _ => None
  end.
Proof.
  rewrite conflicted_selected.
  rewrite DictFacts.dict_get_selected
    by first [apply type_conflicts_keeps_key | apply normalize_NoDup].
  destruct (dict_get (norm existing) col) as [old|]; [|reflexivity].
  destruct (dict_get (norm new) col) as [nw|]; [|reflexivity].
  destruct (String.eqb old nw); reflexivity.
Qed.

(** X1. Looking a column up in the three results: Added gives the type of
    the candidate for a column the existing schema lacks, Removed gives the
    existing type for a column the candidate lacks, Conflicted gives the
    pair (existing type, candidate type) for a column of both whose types
    differ; every other lookup finds nothing. *)
Theorem compare_schemas_lookup (existing new : Schema) (col : string) :
  dict_get (added upper existing new) col =
    (if dict_mem col (norm existing) then None else dict_get (norm new) col) /\
  dict_get (removed upper existing new) col =
    (if dict_mem col (norm new) then None else dict_get (norm existing) col) /\
  dict_get (conflicted upper existing new) col =
    match dict_get (norm existing) col, dict_get (norm new) col with
    | Some old, Some nw => if String.eqb old nw then None else Some (old, nw)
    | _, _ => None
    end.
Proof.
  split; [apply dict_get_added|].
  split; [apply dict_get_removed|apply dict_get_conflicted].
Qed.

(** X2. The diff is complete: applying Added, Removed and Conflicted to the
    normalized existing schema gives, column by column, the normalized
    candidate. *)
Theorem apply_diff_gives_candidate (existing new : Schema) (col : string) :
  apply_diff (norm existing) (added upper existing new)
    (removed upper existing new) (conflicted upper existing new) col =
  dict_get (norm new) col.
Proof.
  unfold apply_diff.
  rewrite dict_get_added, dict_get_conflicted, dict_mem_removed.
  unfold dict_mem.
  destruct (dict_get (norm existing) col) as [old|];
    destruct (dict_get (norm new) col) as [nw|]; simpl; try reflexivity.
  destruct (String.eqb_spec old nw) as [->|]; reflexivity.
Qed.

(** X3. The diff is empty exactly when the two normalized schemas give
    every column the same type, whatever the order of their columns. *)
Theorem compare_schemas_empty_iff (existing new : Schema) :
  compare_schemas upper existing new = ([], [], []) <->
  (forall col, dict_get (norm existing) col = dict_get (norm new) col).
Proof.
  split.
  - intros H col.
    pose proof (dict_mem_added upper existing new col) as Ha.
    pose proof (dict_mem_removed upper existing new col) as Hr.
    pose proof (dict_mem_conflicted upper existing new col) as Hc.
    unfold added, removed, conflicted in Ha, Hr, Hc. rewrite H in Ha, Hr, Hc.
    simpl in Ha, Hr, Hc. unfold dict_mem in Ha, Hr.
    destruct (dict_get (norm existing) col) as [old|];
      destruct (dict_get (norm new) col) as [nw|];
      simpl in *; try discriminate; try reflexivity.
    destruct (String.eqb_spec old nw) as [->|]; [reflexivity|discriminate].
  - intros H. unfold compare_schemas.
    assert (forall k t, In (k, t) (norm new) -> dict_get (norm existing) k = Some t)
      as Hn.
    { intros k t Hin. rewrite H.
      apply DictFacts.dict_get_item; [apply normalize_NoDup|exact Hin]. }
    assert (forall k t, In (k, t) (norm existing) -> dict_get (norm new) k = Some t)
      as He.
    { intros k t Hin. rewrite <- H.
      apply DictFacts.dict_get_item; [apply normalize_NoDup|exact Hin]. }
    unfold only_in, type_conflicts.
    rewrite !dict_comp_rejects; [reflexivity| | |].
    + intros k t Hin. now rewrite (He k t Hin), String.eqb_refl.
    + intros k t Hin. unfold dict_mem. now rewrite (He k t Hin).
    + intros k t Hin. unfold dict_mem. now rewrite (Hn k t Hin).
Qed.

Lemma keys_only_in (a b : Schema) :
  NoDup (keys a) ->
  keys (only_in a b) = filter (fun k => negb (dict_mem k b)) (keys a).
Proof.
  intros Hnd. unfold only_in.
  rewrite DictFacts.dict_comp_selected
    by first [apply only_in_keeps_key | assumption].
  clear Hnd. induction a as [|[k t] a IH]; simpl; [reflexivity|].
  destruct (dict_mem k b); simpl; now rewrite IH.
Qed.

Lemma shared_keys_length (a b : Schema) :
  NoDup (keys a) -> NoDup (keys b) ->
  length (filter (fun k => dict_mem k b) (keys a)) =
  length (filter (fun k => dict_mem k a) (keys b)).
Proof.
  intros Ha Hb.
  apply Nat.le_antisymm; apply NoDup_incl_length;
    try (apply NoDup_filter; assumption);
    intros k Hin; apply filter_In in Hin; destruct Hin as [Hin Hmem];
    apply filter_In; split;
    try (apply DictFacts.dict_mem_In; exact Hmem);
    apply DictFacts.dict_mem_In; exact Hin.
Qed.

Lemma only_in_length (a b : Schema) :
  NoDup (keys a) ->
  length (only_in a b) + length (filter (fun k => dict_mem k b) (keys a)) =
  length a.
Proof.
  intros Hnd.
  rewrite <- (length_map fst (only_in a b)).
  change (map fst (only_in a b)) with (keys (only_in a b)).
  rewrite keys_only_in by assumption.
  rewrite Nat.add_comm, filter_length. apply length_map.
Qed.

Lemma conflicts_length (a b : Schema) :
  NoDup (keys a) ->
  length (type_conflicts a b) <= length (filter (fun k => dict_mem k b) (keys a)).
Proof.
  intros Hnd.
  rewrite <- (length_map fst (type_conflicts a b)).
  apply NoDup_incl_length.
  - apply (DictFacts.dict_comp_NoDup _ a).
  - intros k Hin. apply DictFacts.dict_mem_In in Hin.
    rewrite dict_mem_type_conflicts in Hin by assumption.
    apply filter_In.
    destruct (dict_get a k) as [old|] eqn:Ea; [|discriminate].
    destruct (dict_get b k) as [nw|] eqn:Eb; [|discriminate].
    split.
    + apply DictFacts.dict_get_In in Ea. apply (in_map fst) in Ea. exact Ea.
    + unfold dict_mem. now rewrite Eb.
Qed.

(** X4. The sizes of the results are tied to the sizes of the normalized
    schemas: what the candidate gains over its Added columns is what the
    existing schema keeps beyond its Removed ones, and the conflicts are
    among those shared columns. *)
Theorem compare_schemas_counts (existing new : Schema) :
  length (added upper existing new) + length (norm existing) =
  length (removed upper existing new) + length (norm new) /\
  length (removed upper existing new) + length (conflicted upper existing new)
    <= length (norm existing) /\
  length (added upper existing new) + length (conflicted upper existing new)
    <= length (norm new).
Proof.
  pose proof (normalize_NoDup upper existing) as He.
  pose proof (normalize_NoDup upper new) as Hn.
  pose proof (only_in_length (norm new) (norm existing) Hn) as Ha.
  pose proof (only_in_length (norm existing) (norm new) He) as Hr.
  pose proof (shared_keys_length (norm existing) (norm new) He Hn) as Hs.
  pose proof (conflicts_length (norm existing) (norm new) He) as Hc.
  change (added upper existing new) with (only_in (norm new) (norm existing)).
  change (removed upper existing new) with (only_in (norm existing) (norm new)).
  change (conflicted upper existing new)
    with (type_conflicts (norm existing) (norm new)).
  lia.
Qed.

End DifferMore.

(** ** Order and collisions in comprehensions *)

Section KeyOrder.

Context {A B : Type}.
Variable h : string -> A -> option (string * B).

Lemma keys_dict_set (d : dict B) k b :
  keys (dict_set d k b) =
  if dict_mem k d then keys d else (keys d ++ [k])%list.
Proof.
  unfold dict_mem. induction d as [|[k0 b0] d IH]; simpl; [reflexivity|].
  destruct (String.eqb k k0); simpl; [reflexivity|].
  rewrite IH. now destruct (dict_get d k).
Qed.

Lemma first_seen_In (l : list string) k : In k (first_seen l) <-> In k l.
Proof.
  unfold first_seen. rewrite <- in_rev, nodup_In, <- in_rev. tauto.
Qed.

Lemma first_seen_snoc (l : list string) k :
  first_seen (l ++ [k])%list =
  if in_dec string_dec k l then first_seen l else (first_seen l ++ [k])%list.
Proof.
  unfold first_seen. rewrite rev_app_distr. simpl.
  destruct (in_dec string_dec k (rev l)) as [Hin|Hout];
    destruct (in_dec string_dec k l) as [Hin'|Hout']; simpl;
    try reflexivity; exfalso.
  - apply Hout'. now apply in_rev.
  - apply Hout. now apply in_rev in Hin'.
Qed.

Lemma selected_app (d1 d2 : dict A) :
  selected h (d1 ++ d2)%list = (selected h d1 ++ selected h d2)%list.
Proof.
  induction d1 as [|[k a] d1 IH]; simpl; [reflexivity|].
  destruct (h k a); simpl; now rewrite IH.
Qed.

(** A comprehension keeps each key at the place of its first write. *)
Lemma dict_comp_key_order (d : dict A) :
  keys (dict_comp h d) = first_seen (keys (selected h d)).
Proof.
  induction d as [|[k a] d IH] using rev_ind; [reflexivity|].
  unfold dict_comp in *. rewrite fold_left_app, selected_app. simpl.
  unfold comp_step at 1. simpl.
  destruct (h k a) as [[k' b]|]; simpl.
  - unfold keys at 2. rewrite map_app. simpl.
    rewrite first_seen_snoc, keys_dict_set.
    fold (keys (selected h d)). rewrite <- IH.
    destruct (dict_mem k' (fold_left (comp_step h) d [])) eqn:Em;
      destruct (in_dec string_dec k' (keys (selected h d))) as [Hin|Hout];
      try reflexivity; exfalso.
    + apply Hout. apply DictFacts.dict_mem_In in Em.
      rewrite IH in Em. exact (proj1 (first_seen_In _ _) Em).
    + apply (proj2 (first_seen_In _ _)) in Hin. rewrite <- IH in Hin.
      apply DictFacts.dict_mem_In in Hin. congruence.
  - now rewrite app_nil_r.
Qed.

End KeyOrder.

Section NormalizeMore.

Variable upper : string -> string.

Local Abbreviation norm := (normalize upper).

Lemma normalize_selected (s : Schema) :
  selected (fun k (t : string) => Some (upper k, t)) s =
  map (fun kv => (upper (fst kv), snd kv)) s.
Proof.
  induction s as [|[k t] s IH]; simpl; [reflexivity|now rewrite IH].
Qed.

(** X5. Column names that collide after upper-casing share one entry of
    the normalized schema: it stands where the first of them stood and
    holds the type of the last of them. *)
Theorem normalize_collisions (s : Schema) (col : string) :
  keys (norm s) = first_seen (map upper (keys s)) /\
  dict_get (norm s) col =
  dict_get (rev (map (fun kv => (upper (fst kv), snd kv)) s)) col.
Proof.
  split.
  - unfold normalize. rewrite dict_comp_key_order, normalize_selected.
    unfold keys. now rewrite !map_map.
  - unfold normalize. now rewrite DictFacts.dict_comp_get, normalize_selected.
Qed.

Lemma only_in_empty (a : Schema) : NoDup (keys a) -> only_in a [] = a.
Proof.
  intros Hnd. unfold only_in.
  rewrite DictFacts.dict_comp_selected
    by first [apply only_in_keeps_key | assumption].
  clear Hnd. induction a as [|[k t] a IH]; simpl; [reflexivity|].
  f_equal. exact IH.
Qed.

(** X6. Against an empty schema nothing is shared: with no existing schema
    every column of the normalized candidate is Added, in its order, and
    with an empty candidate every existing column is Removed; there is no
    conflict either way. *)
Theorem compare_schemas_empty_side (s : Schema) :
  compare_schemas upper [] s = (norm s, [], []) /\
  compare_schemas upper s [] = ([], norm s, []).
Proof.
  unfold compare_schemas.
  change (norm []) with (@nil (string * string)).
  rewrite (only_in_empty (norm s)) by apply normalize_NoDup.
  split; [reflexivity|].
  assert (type_conflicts (norm s) [] = []) as ->; [|reflexivity].
  apply dict_comp_rejects. reflexivity.
Qed.

Lemma normalize_fixed (s : Schema) :
  NoDup (keys s) -> (forall k t, In (k, t) s -> upper k = k) -> norm s = s.
Proof.
  intros Hnd Hfix.
  assert (selected (fun k (t : string) => Some (upper k, t)) s = s) as Hsel.
  { clear Hnd. induction s as [|[k t] s IH]; simpl; [reflexivity|].
    rewrite (Hfix k t) by now left.
    rewrite IH; [reflexivity|]. intros k' t' Hin. apply (Hfix k' t'). now right. }
  unfold normalize. rewrite DictFacts.dict_comp_distinct; rewrite Hsel; auto.
Qed.

Lemma normalize_idempotent (s : Schema) :
  (forall k, upper (upper k) = upper k) -> norm (norm s) = norm s.
Proof.
  intros Hup. apply normalize_fixed; [apply normalize_NoDup|].
  intros k t Hin. apply normalize_items in Hin.
  destruct Hin as (k0 & _ & <-). apply Hup.
Qed.

(** X7. When upper-casing an upper-cased name changes nothing, normalizing
    twice is normalizing once, so schemas stored already normalized give the
    diff of the schemas they came from. *)
Theorem compare_schemas_normalized_input (a b : Schema) :
  (forall k, upper (upper k) = upper k) ->
  norm (norm a) = norm a /\
  compare_schemas upper (norm a) (norm b) = compare_schemas upper a b.
Proof.
  intros Hup. split; [now apply normalize_idempotent|].
  unfold compare_schemas. now rewrite !normalize_idempotent.
Qed.

End NormalizeMore.

Lemma ascii_upper_char_idempotent (c : ascii) :
  ascii_upper_char (ascii_upper_char c) = ascii_upper_char c.
Proof.
  destruct c as [[] [] [] [] [] [] [] []]; vm_compute; reflexivity.
Qed.

Lemma ascii_upper_idempotent (s : string) :
  ascii_upper (ascii_upper s) = ascii_upper s.
Proof.
  induction s as [|c s IH]; simpl; [reflexivity|].
  now rewrite ascii_upper_char_idempotent, IH.
Qed.

Lemma compare_schemas_normalized_input_witness :
  compare_schemas ascii_upper
    (normalize ascii_upper [("id", "NUMBER"); ("Name", "TEXT")])
    (normalize ascii_upper [("ID", "FLOAT"); ("age", "NUMBER")]) =
  compare_schemas ascii_upper
    [("id", "NUMBER"); ("Name", "TEXT")] [("ID", "FLOAT"); ("age", "NUMBER")].
Proof.
  exact (proj2 (compare_schemas_normalized_input ascii_upper
                  [("id", "NUMBER"); ("Name", "TEXT")]
                  [("ID", "FLOAT"); ("age", "NUMBER")]
                  ascii_upper_idempotent)).
Defined.

(** ** The generator and the delegator on the same diff *)

Section NoChange.

Variable upper : string -> string.

Lemma compare_schemas_parts (existing new : Schema) :
  compare_schemas upper existing new =
  (added upper existing new, removed upper existing new,
   conflicted upper existing new).
Proof.
  unfold added, removed, conflicted.
  now destruct (compare_schemas upper existing new) as [[a r] c].
Qed.

Lemma join_starts_with_entry (sep x : string) (l : list string) :
  exists rest, join sep (x :: l) = x ++ rest.
Proof.
  destruct l as [|y l]; simpl.
  - exists "". induction x as [|c x IH]; simpl; [reflexivity|now rewrite <- IH].
  - eexists. reflexivity.
Qed.

Lemma entry_differs_from_no_change (existing new : Schema)
    (table_name x rest : string) :
  In x (sql_statements upper existing new table_name) ->
  x ++ rest <> no_change_sql.
Proof.
  rewrite sql_statements_layout, !in_app_iff, !in_map_iff.
  intros [(item & <- & _)|[(item & <- & _)|(item & <- & _)]];
    simpl; discriminate.
Qed.

Lemma statements_differ_from_no_change (existing new : Schema)
    (table_name : string) :
  sql_statements upper existing new table_name <> [] ->
  generate_sql_with_ai upper existing new table_name <> no_change_sql.
Proof.
  unfold generate_sql_with_ai.
  pose proof (entry_differs_from_no_change existing new table_name) as Hentry.
  destruct (sql_statements upper existing new table_name) as [|x l];
    [congruence|].
  intros _. destruct (join_starts_with_entry nl x l) as [rest ->].
  apply Hentry. now left.
Qed.

(** X8. The advisory comment that nothing changed is returned exactly when
    the diff is empty, and that is exactly when the explanation is given
    without a prompt to [chat_llm]: the two outputs never disagree on
    whether there is a change. *)
Theorem no_change_exactly_on_empty_diff
    (chat_llm : string -> outcome pyval) (existing new : Schema)
    (table_name : string) :
  (generate_sql_with_ai upper existing new table_name =
     "-- No schema changes detected. No ALTER TABLE needed." <->
   compare_schemas upper existing new = ([], [], [])) /\
  (snd (explain_changes_with_ai upper chat_llm existing new table_name) = [] <->
   compare_schemas upper existing new = ([], [], [])).
Proof.
  rewrite compare_schemas_parts. split; split.
  - intros Hout.
    destruct (sql_statements upper existing new table_name) as [|x l] eqn:Es.
    + rewrite sql_statements_layout in Es.
      destruct (added upper existing new); [|discriminate].
      destruct (removed upper existing new); [|discriminate].
      destruct (conflicted upper existing new); [reflexivity|discriminate].
    + exfalso. apply (statements_differ_from_no_change existing new table_name);
        [rewrite Es; discriminate|exact Hout].
  - intros H. injection H as Ha Hr Hc. unfold generate_sql_with_ai.
    rewrite sql_statements_layout, Ha, Hr, Hc. reflexivity.
  - unfold explain_changes_with_ai. rewrite compare_schemas_parts.
    destruct (added upper existing new); [|discriminate].
    destruct (removed upper existing new); [|discriminate].
    destruct (conflicted upper existing new); [reflexivity|discriminate].
  - intros H. injection H as Ha Hr Hc. unfold explain_changes_with_ai.
    rewrite compare_schemas_parts, Ha, Hr, Hc. reflexivity.
Qed.

(** X9. With clean names the output has one line per entry of the diff:
    as many lines as there are Added, Removed and Conflicted columns
    together, and the single advisory comment when there is none. *)
Theorem generate_sql_line_count (existing new : Schema) (table_name : string) :
  clean table_name = true ->
  clean_schema upper existing ->
  clean_schema upper new ->
  length (lines (generate_sql_with_ai upper existing new table_name)) =
  Nat.max 1 (length (added upper existing new)
             + length (removed upper existing new)
             + length (conflicted upper existing new)).
Proof.
  intros Ht He Hn.
  rewrite (generate_sql_lines upper existing new table_name Ht He Hn).
  pose proof (sql_statements_layout upper existing new table_name) as Hlay.
  apply (f_equal (@length string)) in Hlay.
  rewrite !length_app, !length_map in Hlay.
  destruct (sql_statements upper existing new table_name) as [|x l];
    cbn [length] in *; lia.
Qed.

End NoChange.

Lemma generate_sql_line_count_witness :
  length (lines (generate_sql_with_ai ascii_upper
                   [("a", "TEXT"); ("c", "FLOAT")]
                   [("A", "NUMBER"); ("b", "TEXT")] "T")) = 3.
Proof.
  refine (eq_trans
            (generate_sql_line_count ascii_upper
               [("a", "TEXT"); ("c", "FLOAT")]
               [("A", "NUMBER"); ("b", "TEXT")] "T" _ _ _) _).
  - reflexivity.
  - intros k t [E|[E|[]]]; injection E as <- <-; split; reflexivity.
  - intros k t [E|[E|[]]]; injection E as <- <-; split; reflexivity.
  - reflexivity.
Defined.

(** ** The delegator over [chat_llm] *)

Section Delegation.

Variable upper : string -> string.
Variable exn_str : exn -> string.
Variable py_str : pyval -> string.

(** X10. With the provider [ollama] and a failing [ollama.chat], a
    non-empty diff makes [explain_changes_with_ai] raise that failure, after
    the one prompt it sent: the delegator adds no handling of its own. *)
Theorem explain_raises_when_ollama_fails (existing new : Schema)
    (table_name endpoint api_key model : string) (e : exn)
    (post : string -> string -> string -> outcome Response) :
  is_empty (added upper existing new) && is_empty (removed upper existing new)
    && is_empty (conflicted upper existing new) = false ->
  explain_changes_with_ai upper
    (chat_llm exn_str py_str (mkConfig "ollama" endpoint api_key model)
       (mkBackends (fun _ _ => Raises e) post))
    existing new table_name =
  (Raises e, [explain_prompt existing new table_name]).
Proof.
  intros Hdiff. now rewrite explain_delegates.
Qed.

(** X11. With any provider but [ollama], [explain_changes_with_ai] returns a
    value for every pair of schemas and every behaviour of the backends, and
    sends at most one prompt. *)
Theorem explain_returns_without_ollama (cfg : Config) (net : Backends)
    (existing new : Schema) (table_name : string) :
  LLM_PROVIDER cfg <> "ollama" ->
  (exists v,
      fst (explain_changes_with_ai upper (chat_llm exn_str py_str cfg net)
             existing new table_name) = Returns v) /\
  length (snd (explain_changes_with_ai upper (chat_llm exn_str py_str cfg net)
                 existing new table_name)) <= 1.
Proof.
  intros Hp.
  destruct (is_empty (added upper existing new)
            && is_empty (removed upper existing new)
            && is_empty (conflicted upper existing new)) eqn:Hdiff.
  - unfold explain_changes_with_ai. rewrite compare_schemas_parts, Hdiff.
    split; [eexists; reflexivity|simpl; lia].
  - rewrite explain_delegates by exact Hdiff. simpl.
    split; [now apply chat_llm_remote_returns|lia].
Qed.

End Delegation.

Lemma explain_raises_when_ollama_fails_witness :
  explain_changes_with_ai ascii_upper
    (chat_llm (fun _ => "") (fun _ => "") (mkConfig "ollama" "" "" "llama3.1:8b-instruct")
       (mkBackends (fun _ _ => Raises (ExternalError "connection refused"))
          (fun _ _ _ => Raises TypeError)))
    [("A", "TEXT")] [("A", "TEXT"); ("B", "NUMBER")] "T" =
  (Raises (ExternalError "connection refused"),
   [explain_prompt [("A", "TEXT")] [("A", "TEXT"); ("B", "NUMBER")] "T"]).
Proof.
  apply (explain_raises_when_ollama_fails ascii_upper (fun _ => "") (fun _ => "")
           [("A", "TEXT")] [("A", "TEXT"); ("B", "NUMBER")] "T").
  reflexivity.
Defined.

Lemma explain_returns_without_ollama_witness :
  "remote" <> "ollama" /\
  exists v,
    fst (explain_changes_with_ai ascii_upper
           (chat_llm (fun _ => "") (fun _ => "")
              (mkConfig "remote" "" "" "")
              (mkBackends (fun _ _ => Raises TypeError)
                 (fun _ _ _ => Raises TypeError)))
           [("A", "TEXT")] [("B", "NUMBER")] "T") = Returns v.
Proof.
  split; [discriminate|].
  refine (proj1 (explain_returns_without_ollama ascii_upper (fun _ => "") (fun _ => "")
                   (mkConfig "remote" "" "" "")
                   (mkBackends (fun _ _ => Raises TypeError)
                      (fun _ _ _ => Raises TypeError))
                   [("A", "TEXT")] [("B", "NUMBER")] "T" _)).
  discriminate.
Defined.

(** ** The order of [sorted] on items *)

Module OrderFacts.

Lemma ascii_compare_refl (a : ascii) : Ascii.compare a a = Eq.
Proof. apply N.compare_refl. Qed.


Lemma compare_refl (s : string) : String.compare s s = Eq.
Proof.
  induction s as [|a s IH]; simpl; [reflexivity|].
  now rewrite ascii_compare_refl.
Qed.











End OrderFacts.



(** ** More on schema inference *)

Section InferMore.

Variable upper : string -> string.

Lemma canonical_type_vocabulary (d : string) :
  In (canonical_type d) ["NUMBER"; "FLOAT"; "BOOLEAN"; "TIMESTAMP_NTZ"; "TEXT"].
Proof.
  unfold canonical_type.
  destruct (str_in "int" d); [simpl; tauto|].
  destruct (str_in "float" d); [simpl; tauto|].
  destruct (str_in "bool" d); [simpl; tauto|].
  destruct (str_in "datetime" d || str_in "date" d); simpl; tauto.
Qed.


(** X14. An inferred schema holds only the five canonical types, and it
    has at most one entry per column of the frame. *)
Theorem infer_schema_range (df : DataFrame) :
  Forall (fun item =>
            In (snd item) ["NUMBER"; "FLOAT"; "BOOLEAN"; "TIMESTAMP_NTZ"; "TEXT"])
         (infer_schema_from_df upper df) /\
  length (infer_schema_from_df upper df) <= length df.
Proof.
  split.
  - apply Forall_forall. intros [k t] Hin.
    rewrite infer_schema_as_comp in Hin.
    apply DictFacts.dict_comp_items in Hin. rewrite infer_selected in Hin.
    apply in_map_iff in Hin. destruct Hin as (c & E & _).
    injection E as _ <-. apply canonical_type_vocabulary.
  - rewrite <- (length_map fst (infer_schema_from_df upper df)).
    rewrite <- (length_map (fun c => upper (label c)) df).
    apply NoDup_incl_length.
    + rewrite infer_schema_as_comp. apply DictFacts.dict_comp_NoDup.
    + intros k Hin. change (In k (keys (infer_schema_from_df upper df))) in Hin.
      rewrite infer_schema_as_comp, DictFacts.dict_comp_keys, infer_selected in Hin.
      unfold keys in Hin. now rewrite map_map in Hin.
Qed.

End InferMore.


(** ** The warehouse fetch *)

Section FetchFacts.

Variable upper : string -> string.

(** X15. Whatever the cursor does, the first call executes the catalog
    query of the database as given with the upper-cased schema and table as
    its parameters, and [close] is called exactly once, as the last call. *)
Theorem fetch_closes_cursor (cur : Cursor) (database schema table : string) :
  exists calls,
    snd (fetch_schema_from_snowflake upper cur database schema table) =
    (CallExecute (catalog_query database) (upper schema, upper table)
       :: calls ++ [CallClose])%list /\
    ~ In CallClose calls.
Proof.
  unfold fetch_schema_from_snowflake, finally_close.
  destruct (cur_execute cur _ _) as [[]|e].
  - destruct (cur_fetchall cur _ _) as [rows|e];
      destruct (cur_close cur); exists [CallFetchall];
      (split; [reflexivity|simpl; intuition discriminate]).
  - destruct (cur_close cur); exists [];
      (split; [reflexivity|simpl; tauto]).
Qed.

Lemma fetch_returns_inv (cur : Cursor) (database schema table : string)
    (s : Schema) :
  fst (fetch_schema_from_snowflake upper cur database schema table) = Returns s ->
  exists rows,
    cur_execute cur (catalog_query database) (upper schema, upper table)
      = Returns tt /\
    cur_fetchall cur (catalog_query database) (upper schema, upper table)
      = Returns rows /\
    cur_close cur = Returns tt /\
    s = schema_of_rows upper rows.
Proof.
  unfold fetch_schema_from_snowflake, finally_close.
  destruct (cur_execute cur _ _) as [[]|e1];
    [destruct (cur_fetchall cur _ _) as [rows|e2]|];
    destruct (cur_close cur) as [[]|e3]; simpl; try discriminate.
  intros E. injection E as <-. exists rows. auto.
Qed.

Lemma schema_of_rows_items (rows : list (string * string)) k t :
  In (k, t) (schema_of_rows upper rows) ->
  exists name type, In (name, type) rows /\ k = upper name /\ t = upper type.
Proof.
  unfold schema_of_rows. intros Hin. apply DictFacts.dict_comp_items in Hin.
  induction rows as [|[name type] rows IH]; simpl in Hin; [contradiction|].
  destruct Hin as [E|Hin].
  - injection E as <- <-. exists name, type. split; [now left|auto].
  - destruct (IH Hin) as (n & ty & H & Hk & Ht).
    exists n, ty. split; [now right|auto].
Qed.

(** X16. A schema comes back only when [execute], [fetchall] and [close]
    all succeeded, and then every entry is an upper-cased column name with
    an upper-cased type of a fetched row; a failing [execute] skips
    [fetchall], and a failing [close] replaces the result, a fetched schema
    included. *)
Theorem fetch_outcome (cur : Cursor) (database schema table : string) :
  let q := catalog_query database in
  let params := (upper schema, upper table) in
  (forall s,
      fst (fetch_schema_from_snowflake upper cur database schema table) = Returns s ->
      exists rows,
        cur_execute cur q params = Returns tt /\
        cur_fetchall cur q params = Returns rows /\
        cur_close cur = Returns tt /\
        forall k t, In (k, t) s ->
          exists name type,
            In (name, type) rows /\ k = upper name /\ t = upper type) /\
  (forall e,
      cur_execute cur q params = Raises e ->
      ~ In CallFetchall
          (snd (fetch_schema_from_snowflake upper cur database schema table))) /\
  (forall e,
      cur_close cur = Raises e ->
      fst (fetch_schema_from_snowflake upper cur database schema table) = Raises e).
Proof.
  cbv zeta. repeat split.
  - intros s Hs. destruct (fetch_returns_inv _ _ _ _ _ Hs) as (rows & H1 & H2 & H3 & ->).
    exists rows. repeat split; auto. apply schema_of_rows_items.
  - intros e He. unfold fetch_schema_from_snowflake, finally_close. rewrite He.
    destruct (cur_close cur); simpl; intuition discriminate.
  - intros e He. unfold fetch_schema_from_snowflake, finally_close. rewrite He.
    destruct (cur_execute cur _ _); [destruct (cur_fetchall cur _ _)|];
      reflexivity.
Qed.

(** X17. A fetched schema is already normalized when upper-casing an
    upper-cased name changes nothing: its column names are distinct, and
    [compare_schemas] reads it as it is. *)
Theorem fetched_schema_is_normalized (cur : Cursor)
    (database schema table : string) (s : Schema) :
  (forall k, upper (upper k) = upper k) ->
  fst (fetch_schema_from_snowflake upper cur database schema table) = Returns s ->
  NoDup (keys s) /\ normalize upper s = s.
Proof.
  intros Hup Hs.
  destruct (fetch_returns_inv _ _ _ _ _ Hs) as (rows & _ & _ & _ & ->).
  assert (NoDup (keys (schema_of_rows upper rows))) as Hnd
    by apply DictFacts.dict_comp_NoDup.
  split; [exact Hnd|].
  apply normalize_fixed; [exact Hnd|].
  intros k t Hin. apply schema_of_rows_items in Hin.
  destruct Hin as (name & type & _ & -> & _). apply Hup.
Qed.

End FetchFacts.

Lemma fetched_schema_is_normalized_witness :
  normalize ascii_upper [("ID", "NUMBER"); ("NAME", "TEXT")] =
  [("ID", "NUMBER"); ("NAME", "TEXT")].
Proof.
  refine (proj2 (fetched_schema_is_normalized ascii_upper
                   (mkCursor (fun _ _ => Returns tt)
                      (fun _ _ => Returns [("id", "number"); ("name", "text")])
                      (Returns tt))
                   "DB" "public" "users" [("ID", "NUMBER"); ("NAME", "TEXT")]
                   ascii_upper_idempotent _)).
  reflexivity.
Defined.

(** ** More on the text-generation boundary *)

Section LlmMore.

Variable exn_str : exn -> string.
Variable py_str : pyval -> string.

Ltac returns_text := eexists; split; [reflexivity|left; reflexivity].

(** X18. With any provider but [ollama], [chat_llm] returns a value for
    every behaviour of the backends, and the value is a string unless it is
    the [generated_text] field of the first item of a decoded body, which
    is passed on as it is. *)
Theorem chat_llm_without_ollama (cfg : Config) (net : Backends) (prompt : string) :
  LLM_PROVIDER cfg <> "ollama" ->
  exists v,
    chat_llm exn_str py_str cfg net prompt = Returns v /\
    (is_str v = true \/
     exists resp fields items,
       requests_post net (LLM_ENDPOINT cfg) (LLM_API_KEY cfg) prompt = Returns resp /\
       status_code resp = 200 /\
       json resp = Returns (VList (VDict fields :: items)) /\
       dict_get fields "generated_text" = Some v).
Proof.
  intros Hp. unfold chat_llm.
  destruct (String.eqb_spec (LLM_PROVIDER cfg) "ollama") as [E|_]; [contradiction|].
  destruct (String.eqb (LLM_PROVIDER cfg) "remote"); [|returns_text].
  destruct (String.eqb (LLM_ENDPOINT cfg) "" || String.eqb (LLM_API_KEY cfg) "");
    [returns_text|].
  destruct (requests_post net (LLM_ENDPOINT cfg) (LLM_API_KEY cfg) prompt)
    as [resp|e] eqn:Ep; simpl; [|returns_text].
  destruct (status_code resp =? 200)%nat eqn:Es; simpl; [|returns_text].
  destruct (json resp) as [data|e] eqn:Ej; simpl; [|returns_text].
  destruct data as [| | | |items|]; simpl; try returns_text.
  destruct items as [|first items]; simpl; [returns_text|].
  destruct first as [| | |s|inner|fields]; simpl; try returns_text.
  - destruct (str_in "generated_text" s); simpl; returns_text.
  - destruct (existsb _ inner); simpl; returns_text.
  - unfold dict_mem.
    destruct (dict_get fields "generated_text") as [v|] eqn:Eg; simpl;
      [|returns_text].
    eexists. split; [reflexivity|]. right.
    exists resp, fields, items. apply Nat.eqb_eq in Es. auto.
Qed.

(** X19. Each failure on the [remote] side has its own text: an unknown
    provider, a missing endpoint or key, an endpoint that cannot be
    reached, a status other than 200 (answered with the code and the body,
    which is not decoded), and a body that does not decode. *)
Theorem chat_llm_failure_texts (cfg : Config) (net : Backends) (prompt : string) :
  (LLM_PROVIDER cfg <> "ollama" -> LLM_PROVIDER cfg <> "remote" ->
   chat_llm exn_str py_str cfg net prompt =
   Returns (VStr "❌ Invalid LLM_PROVIDER. Use 'ollama' or 'remote'.")) /\
  (LLM_PROVIDER cfg = "remote" ->
   LLM_ENDPOINT cfg = "" \/ LLM_API_KEY cfg = "" ->
   chat_llm exn_str py_str cfg net prompt =
   Returns (VStr "❌ Hugging Face endpoint or API key not set.")) /\
  (LLM_PROVIDER cfg = "remote" ->
   LLM_ENDPOINT cfg <> "" -> LLM_API_KEY cfg <> "" ->
   (forall e,
       requests_post net (LLM_ENDPOINT cfg) (LLM_API_KEY cfg) prompt = Raises e ->
       chat_llm exn_str py_str cfg net prompt =
       Returns (VStr ("❌ Error calling Hugging Face API: " ++ exn_str e))) /\
   (forall resp,
       requests_post net (LLM_ENDPOINT cfg) (LLM_API_KEY cfg) prompt = Returns resp ->
       status_code resp <> 200 ->
       chat_llm exn_str py_str cfg net prompt =
       Returns (VStr ("❌ Hugging Face API error " ++ decimal (status_code resp)
                      ++ ": " ++ text resp))) /\
   (forall resp e,
       requests_post net (LLM_ENDPOINT cfg) (LLM_API_KEY cfg) prompt = Returns resp ->
       status_code resp = 200 ->
       json resp = Raises e ->
       chat_llm exn_str py_str cfg net prompt =
       Returns (VStr ("❌ Error calling Hugging Face API: " ++ exn_str e)))).
Proof.
  unfold chat_llm. split; [|split].
  - intros H1 H2.
    destruct (String.eqb_spec (LLM_PROVIDER cfg) "ollama"); [contradiction|].
    destruct (String.eqb_spec (LLM_PROVIDER cfg) "remote"); [contradiction|].
    reflexivity.
  - intros -> Hmissing. simpl.
    destruct Hmissing as [-> | ->]; simpl; [reflexivity|].
    now rewrite orb_true_r.
  - intros -> He Hk. simpl.
    destruct (String.eqb_spec (LLM_ENDPOINT cfg) ""); [contradiction|].
    destruct (String.eqb_spec (LLM_API_KEY cfg) ""); [contradiction|].
    simpl. repeat split.
    + intros e ->. reflexivity.
    + intros resp -> Hs. simpl. apply Nat.eqb_neq in Hs. now rewrite Hs.
    + intros resp e -> Hs Hj. simpl. rewrite Hs, Hj. reflexivity.
Qed.

(** X20. A key of the secrets wins over the environment, the environment
    wins over the default, and when the secrets cannot be read [_DEF] goes
    on with the environment and the default. *)
Theorem DEF_precedence (st : Settings) (k d : string) :
  (forall s v, secrets st = Returns s -> dict_get s k = Some v ->
               _DEF st k d = v) /\
  (forall s, secrets st = Returns s -> dict_get s k = None ->
             _DEF st k d = getenv (environ st) k d) /\
  (forall e, secrets st = Raises e -> _DEF st k d = getenv (environ st) k d) /\
  (forall v, dict_get (environ st) k = Some v -> getenv (environ st) k d = v) /\
  (dict_get (environ st) k = None -> getenv (environ st) k d = d).
Proof.
  unfold _DEF, getenv. repeat split.
  - intros s v -> ->. reflexivity.
  - intros s -> ->. reflexivity.
  - intros e ->. reflexivity.
  - intros v ->. reflexivity.
  - intros ->. reflexivity.
Qed.

(** X21. With no provider and no model configured anywhere, [chat_llm]
    calls [ollama.chat] with the model [llama3.1:8b-instruct], never the
    HTTP endpoint, and a failure of that call is raised to the caller. *)
Theorem unconfigured_chat_llm_raises (st : Settings) (prompt : string)
    (chat : string -> string -> outcome pyval)
    (post : string -> string -> string -> outcome Response) (e : exn) :
  (forall s, secrets st = Returns s ->
             dict_get s "LLM_PROVIDER" = None /\ dict_get s "OLLAMA_MODEL" = None) ->
  dict_get (environ st) "LLM_PROVIDER" = None ->
  dict_get (environ st) "OLLAMA_MODEL" = None ->
  chat "llama3.1:8b-instruct" prompt = Raises e ->
  chat_llm exn_str py_str (module_config st) (mkBackends chat post) prompt =
  Raises e.
Proof.
  intros Hs Hp Hm Hchat.
  assert (_DEF st "LLM_PROVIDER" "ollama" = "ollama" /\
          _DEF st "OLLAMA_MODEL" "llama3.1:8b-instruct" = "llama3.1:8b-instruct")
    as [Eprov Emodel].
  { unfold _DEF, getenv. rewrite Hp, Hm.
    destruct (secrets st) as [s|e0]; [|split; reflexivity].
    destruct (Hs s eq_refl) as [-> ->]. split; reflexivity. }
  unfold chat_llm, module_config. simpl. rewrite Eprov, Emodel. simpl.
  now rewrite Hchat.
Qed.

End LlmMore.

Lemma chat_llm_without_ollama_witness :
  "remote" <> "ollama" /\
  exists v,
    chat_llm (fun _ => "") (fun _ => "")
      (mkConfig "remote" "https://example.invalid/model" "key" "")
      (mkBackends (fun _ _ => Raises TypeError)
         (fun _ _ _ => Returns (mkResponse 200 "" (Returns (VList [])))))
      "hi" = Returns v.
Proof.
  split; [discriminate|].
  destruct (chat_llm_without_ollama (fun _ => "") (fun _ => "")
              (mkConfig "remote" "https://example.invalid/model" "key" "")
              (mkBackends (fun _ _ => Raises TypeError)
                 (fun _ _ _ => Returns (mkResponse 200 "" (Returns (VList [])))))
              "hi") as (v & Hv & _); [discriminate|].
  exists v. exact Hv.
Defined.

Lemma unconfigured_chat_llm_raises_witness :
  chat_llm (fun _ => "") (fun _ => "")
    (module_config (mkSettings (Raises (ExternalError "no secrets")) []))
    (mkBackends (fun _ _ => Raises (ExternalError "connection refused"))
       (fun _ _ _ => Raises TypeError))
    "hi" = Raises (ExternalError "connection refused").
Proof.
  apply (unconfigured_chat_llm_raises (fun _ => "") (fun _ => "")
           (mkSettings (Raises (ExternalError "no secrets")) []) "hi").
  - intros s H. discriminate H.
  - reflexivity.
  - reflexivity.
  - reflexivity.
Defined.

(** ** The analysis handlers *)

Section AppFacts.

Variable upper : string -> string.
Variable exn_str : exn -> string.
Variable schema_str : Schema -> string.

(** X22. The live handler shows one error and nothing else, and leaves the
    session as it was, in two cases: without a live schema, or with one
    that has no column, it sends no prompt; and when [chat_llm] raises on a
    non-empty diff, the failure is shown as text and no SQL is. *)
Theorem analyze_live_errors (chat_llm : string -> outcome pyval)
    (session : Session) (db sc table : option string) :
  (live_schema session = None \/ live_schema session = Some [] ->
   analyze_live upper exn_str schema_str chat_llm session db sc table =
   ([UiError "No live schema present. Fetch it first."], session, [])) /\
  (forall live e,
      live_schema session = Some live -> live <> [] ->
      is_empty (added upper (prev_schema session) live)
        && is_empty (removed upper (prev_schema session) live)
        && is_empty (conflicted upper (prev_schema session) live) = false ->
      chat_llm (explain_prompt (prev_schema session) live
                  (fmt db ++ "." ++ fmt sc ++ "." ++ fmt table)) = Raises e ->
      analyze_live upper exn_str schema_str chat_llm session db sc table =
      ([UiError ("Error while calling AI: " ++ exn_str e)], session,
       [explain_prompt (prev_schema session) live
          (fmt db ++ "." ++ fmt sc ++ "." ++ fmt table)])).
Proof.
  split.
  - unfold analyze_live. intros [-> | ->]; reflexivity.
  - intros live e Hlive Hne Hdiff Hchat. unfold analyze_live. rewrite Hlive.
    destruct live as [|item live]; [congruence|].
    rewrite explain_delegates by exact Hdiff. now rewrite Hchat.
Qed.

(** X23. On an empty diff the live handler sends no prompt: it shows the
    static message for the table [db.sc.table], the advisory comment as
    SQL and a chart of three zeros, and stores that SQL in the context. *)
Theorem analyze_live_no_change (chat_llm : string -> outcome pyval)
    (session : Session) (db sc table : option string) (live : Schema) :
  live_schema session = Some live -> live <> [] ->
  compare_schemas upper (prev_schema session) live = ([], [], []) ->
  analyze_live upper exn_str schema_str chat_llm session db sc table =
  ([UiMarkdown (VStr "### AI Explanation");
    UiMarkdown (VStr (no_change_message
                        (fmt db ++ "." ++ fmt sc ++ "." ++ fmt table)));
    UiMarkdown (VStr "### AI-Generated SQL");
    UiCode "-- No schema changes detected. No ALTER TABLE needed.";
    UiMarkdown (VStr "### Schema Changes Visualization");
    UiChart [("New Columns", 0); ("Missing Columns", 0); ("Conflicts", 0)]],
   mkSession ("Prev: " ++ schema_str (prev_schema session) ++ nl ++ "Live: "
              ++ schema_str live ++ nl
              ++ "SQL: -- No schema changes detected. No ALTER TABLE needed.")
             (live_schema session) (prev_schema session),
   []).
Proof.
  intros Hlive Hne Hdiff. unfold analyze_live. rewrite Hlive.
  destruct live as [|item live]; [congruence|].
  unfold explain_changes_with_ai, generate_sql_with_ai, sql_statements.
  rewrite Hdiff. reflexivity.
Qed.

(** X24. In the local handler nothing stands between [chat_llm] and the
    page: when it raises on a non-empty diff, the handler raises the same
    exception after the one prompt, and shows nothing. *)
Theorem analyze_local_raises (chat_llm : string -> outcome pyval)
    (session : Session) (existing new : Schema) (table_name : string) (e : exn) :
  is_empty (added upper existing new) && is_empty (removed upper existing new)
    && is_empty (conflicted upper existing new) = false ->
  chat_llm (explain_prompt existing new table_name) = Raises e ->
  analyze_local upper schema_str chat_llm session existing new table_name =
  (Raises e, [explain_prompt existing new table_name]).
Proof.
  intros Hdiff Hchat. unfold analyze_local.
  rewrite explain_delegates by exact Hdiff. now rewrite Hchat.
Qed.

End AppFacts.

Lemma analyze_live_errors_witness :
  analyze_live ascii_upper (fun _ => "failed") (fun _ => "")
    (fun _ => Raises (ExternalError "connection refused"))
    (mkSession "" (Some [("ID", "NUMBER")]) [])
    (Some "DB") (Some "PUBLIC") (Some "USERS") =
  ([UiError "Error while calling AI: failed"],
   mkSession "" (Some [("ID", "NUMBER")]) [],
   [explain_prompt [] [("ID", "NUMBER")] "DB.PUBLIC.USERS"]).
Proof.
  refine (proj2 (analyze_live_errors ascii_upper (fun _ => "failed") (fun _ => "")
                   (fun _ => Raises (ExternalError "connection refused"))
                   (mkSession "" (Some [("ID", "NUMBER")]) [])
                   (Some "DB") (Some "PUBLIC") (Some "USERS"))
                [("ID", "NUMBER")] (ExternalError "connection refused") _ _ _ _).
  - reflexivity.
  - discriminate.
  - reflexivity.
  - reflexivity.
Defined.

Lemma analyze_live_no_change_witness :
  snd (analyze_live ascii_upper (fun _ => "") (fun _ => "")
         (fun _ => Raises TypeError)
         (mkSession "" (Some [("ID", "NUMBER")]) [("id", "NUMBER")])
         (Some "DB") (Some "PUBLIC") (Some "USERS")) = [].
Proof.
  rewrite (analyze_live_no_change ascii_upper (fun _ => "") (fun _ => "")
             (fun _ => Raises TypeError)
             (mkSession "" (Some [("ID", "NUMBER")]) [("id", "NUMBER")])
             (Some "DB") (Some "PUBLIC") (Some "USERS") [("ID", "NUMBER")]).
  - reflexivity.
  - reflexivity.
  - discriminate.
  - reflexivity.
Defined.

Lemma analyze_local_raises_witness :
  analyze_local ascii_upper (fun _ => "")
    (fun _ => Raises (ExternalError "connection refused"))
    (mkSession "" None []) [("A", "TEXT")] [("A", "TEXT"); ("B", "NUMBER")] "T" =
  (Raises (ExternalError "connection refused"),
   [explain_prompt [("A", "TEXT")] [("A", "TEXT"); ("B", "NUMBER")] "T"]).
Proof.
  apply (analyze_local_raises ascii_upper (fun _ => "")
           (fun _ => Raises (ExternalError "connection refused"))
           (mkSession "" None []) [("A", "TEXT")] [("A", "TEXT"); ("B", "NUMBER")] "T");
    reflexivity.
Defined.

(** ** Schema inference on any frame *)

Section InferFrameFacts.

Variable upper : string -> string.

Lemma label_eqb_eq (a b : Label) : label_eqb a b = true <-> a = b.
Proof.
  destruct a as [s|r], b as [t|q]; simpl;
    try (split; [discriminate|intros H; discriminate H]);
    rewrite String.eqb_eq; split; intros H; congruence.
Qed.

Lemma getitem_none (df : Frame) (col : Label) :
  ~ In col (map col_label df) -> getitem df col = [].
Proof.
  induction df as [|x df IH]; simpl; intros H; [reflexivity|].
  destruct (label_eqb (col_label x) col) eqn:E.
  - apply label_eqb_eq in E. tauto.
  - apply IH. tauto.
Qed.

(** With distinct labels [df[col]] is the one column of that label. *)
Lemma getitem_unique (df : Frame) (c : FrameColumn) :
  NoDup (map col_label df) -> In c df -> getitem df (col_label c) = [c].
Proof.
  induction df as [|x df IH]; simpl; intros Hnd Hin; [contradiction|].
  inversion Hnd as [|? ? Hfresh Hnd']; subst.
  destruct Hin as [->|Hin].
  - rewrite (proj2 (label_eqb_eq _ _) eq_refl).
    now rewrite (getitem_none df (col_label c) Hfresh).
  - destruct (label_eqb (col_label x) (col_label c)) eqn:E.
    + apply label_eqb_eq in E. exfalso. apply Hfresh. rewrite E.
      now apply in_map.
    + now apply IH.
Qed.

Lemma getitem_self (df : Frame) (c : FrameColumn) :
  In c df -> exists x rest, getitem df (col_label c) = x :: rest.
Proof.
  intros Hin.
  assert (In c (getitem df (col_label c))) as H.
  { apply filter_In. split; [exact Hin|]. now apply label_eqb_eq. }
  destruct (getitem df (col_label c)) as [|x rest]; [contradiction|].
  now exists x, rest.
Qed.

(** On a frame with distinct string labels a turn of the loop is the
    assignment of [infer_schema_from_df]. *)
Lemma frame_step_string (df : Frame) (c : FrameColumn) (schema : Schema) :
  distinct_string_labels df -> In c df ->
  frame_step upper df (Returns schema) c =
  Returns (dict_set schema (upper (label_text (col_label c)))
             (canonical_type (col_dtype c))).
Proof.
  intros [Hstr Hnd] Hin. unfold frame_step. simpl.
  rewrite (getitem_unique df c Hnd Hin). simpl.
  destruct (Hstr c Hin) as [l ->]. unfold canonical_type, assign. simpl.
  destruct (str_in "int" (col_dtype c)); [reflexivity|].
  destruct (str_in "float" (col_dtype c)); [reflexivity|].
  destruct (str_in "bool" (col_dtype c)); [reflexivity|].
  destruct (str_in "datetime" (col_dtype c) || str_in "date" (col_dtype c));
    reflexivity.
Qed.

Lemma infer_frame_fold (df : Frame) :
  distinct_string_labels df ->
  forall cols acc,
    incl cols df ->
    fold_left (frame_step upper df) cols (Returns acc) =
    Returns (fold_left
               (fun schema col =>
                  dict_set schema (upper (label col)) (canonical_type (dtype col)))
               (map to_column cols) acc).
Proof.
  intros Hdf. induction cols as [|c cols IH]; intros acc Hincl;
    [reflexivity|].
  cbn [fold_left map].
  rewrite frame_step_string; [|exact Hdf|apply Hincl; now left].
  apply IH. intros x Hx. apply Hincl. now right.
Qed.

(** On a frame with distinct string labels the function returns, and what
    it returns is [infer_schema_from_df] of its columns. *)
Lemma infer_frame_agrees (df : Frame) :
  distinct_string_labels df ->
  infer_schema_from_frame upper df =
  Returns (infer_schema_from_df upper (map to_column df)).
Proof.
  intros Hdf. unfold infer_schema_from_frame.
  etransitivity; [apply (infer_frame_fold df Hdf df []), incl_refl|].
  f_equal. clear Hdf. unfold infer_schema_from_df.
  generalize (@nil (string * string)).
  induction (map to_column df) as [|c cols IH]; simpl; intros acc;
    [reflexivity|].
  rewrite IH. f_equal. unfold canonical_type.
  destruct (str_in "int" (dtype c)); [reflexivity|].
  destruct (str_in "float" (dtype c)); [reflexivity|].
  destruct (str_in "bool" (dtype c)); [reflexivity|].
  destruct (str_in "datetime" (dtype c) || str_in "date" (dtype c)); reflexivity.
Qed.

End InferFrameFacts.

Section InferFrameClaim.

Variable upper : string -> string.

Lemma fold_frame_step_raises (df cols : Frame) (e : exn) :
  fold_left (frame_step upper df) cols (Raises e) = Raises e.
Proof. induction cols as [|c cols IH]; simpl; [reflexivity|exact IH]. Qed.

(** A turn of the loop returns, or raises [AttributeError]. *)
Lemma frame_step_outcome (df : Frame) (c : FrameColumn) (schema : Schema) :
  In c df ->
  (exists schema', frame_step upper df (Returns schema) c = Returns schema') \/
  frame_step upper df (Returns schema) c = Raises AttributeError.
Proof.
  intros Hin. unfold frame_step. simpl.
  destruct (getitem_self df c Hin) as (x & rest & ->).
  destruct rest as [|y rest]; simpl; [|now right].
  unfold assign.
  destruct (col_label c) as [l|r]; simpl;
    destruct (str_in "int" (col_dtype x)); simpl; auto; try (left; eexists; reflexivity);
    destruct (str_in "float" (col_dtype x)); simpl; auto; try (left; eexists; reflexivity);
    destruct (str_in "bool" (col_dtype x)); simpl; auto; try (left; eexists; reflexivity);
    destruct (str_in "datetime" (col_dtype x) || str_in "date" (col_dtype x));
    simpl; auto; left; eexists; reflexivity.
Qed.

(** A label that is no [str], or that stands twice, raises. *)
Lemma frame_step_bad_label (df : Frame) (c : FrameColumn) (schema : Schema) :
  In c df ->
  (exists r, col_label c = LOther r) \/ 2 <= length (getitem df (col_label c)) ->
  frame_step upper df (Returns schema) c = Raises AttributeError.
Proof.
  intros Hin Hbad. unfold frame_step. simpl.
  destruct (getitem_self df c Hin) as (x & rest & E). rewrite E in *.
  destruct rest as [|y rest]; simpl; [|reflexivity].
  destruct Hbad as [[r Hr]|Hlen]; [|simpl in Hlen; lia].
  rewrite Hr. unfold assign. simpl.
  destruct (str_in "int" (col_dtype x)); [reflexivity|].
  destruct (str_in "float" (col_dtype x)); [reflexivity|].
  destruct (str_in "bool" (col_dtype x)); [reflexivity|].
  destruct (str_in "datetime" (col_dtype x) || str_in "date" (col_dtype x));
    reflexivity.
Qed.

(** A frame with a label that is no [str], or that stands twice, makes
    [infer_schema_from_df] raise [AttributeError]. *)
Lemma infer_frame_raises (df : Frame) (c : FrameColumn) :
  In c df ->
  (exists r, col_label c = LOther r) \/ 2 <= length (getitem df (col_label c)) ->
  infer_schema_from_frame upper df = Raises AttributeError.
Proof.
  intros Hin Hbad. unfold infer_schema_from_frame.
  assert (forall cols acc, incl cols df -> In c cols ->
            fold_left (frame_step upper df) cols (Returns acc)
            = Raises AttributeError) as Hfold.
  { induction cols as [|x cols IH]; intros acc Hincl Hc; [contradiction|].
    cbn [fold_left].
    destruct (frame_step_outcome df x acc (Hincl x (or_introl eq_refl)))
      as [[schema' E]|E]; rewrite E.
    - destruct Hc as [->|Hc].
      + rewrite (frame_step_bad_label df c acc Hin Hbad) in E. discriminate.
      + apply IH; [|exact Hc]. intros y Hy. apply Hincl. now right.
    - apply fold_frame_step_raises. }
  apply Hfold; [apply incl_refl|exact Hin].
Qed.

Lemma to_column_label (c : FrameColumn) (l : string) :
  col_label c = LStr l -> label (to_column c) = l.
Proof. unfold to_column. intros ->. reflexivity. Qed.

(** C8, as amended.  On every frame whose column labels are distinct
    strings [infer_schema_from_df] returns a schema, without an error and
    empty for a frame without columns.  Each column gets one type by the
    first test that matches the name of its dtype: NUMBER when the name
    holds [int], else FLOAT when it holds [float], else BOOLEAN when it
    holds [bool], else TIMESTAMP_NTZ when it holds [datetime] or [date],
    else TEXT.  The column names of the schema are the upper-cased labels,
    each entry holds the type of a column of that upper-cased label, and
    when the upper-cased labels are distinct the schema lists every column
    with its type in the order of the frame. *)
Theorem infer_schema_on_string_labels (df : Frame) :
  distinct_string_labels df ->
  exists schema,
    infer_schema_from_frame upper df = Returns schema /\
    (df = [] -> schema = []) /\
    NoDup (keys schema) /\
    (forall k, In k (keys schema) <->
               exists c l, In c df /\ col_label c = LStr l /\ k = upper l) /\
    (forall k t, dict_get schema k = Some t ->
                 exists c l, In c df /\ col_label c = LStr l /\ k = upper l /\
                             t = canonical_type (col_dtype c)) /\
    (NoDup (map (fun c => upper (label_text (col_label c))) df) ->
     schema = map (fun c => (upper (label_text (col_label c)),
                             canonical_type (col_dtype c))) df) /\
    (forall d, str_in "int" d = true -> canonical_type d = "NUMBER") /\
    (forall d, str_in "int" d = false -> str_in "float" d = true ->
               canonical_type d = "FLOAT") /\
    (forall d, str_in "int" d = false -> str_in "float" d = false ->
               str_in "bool" d = true -> canonical_type d = "BOOLEAN") /\
    (forall d, str_in "int" d = false -> str_in "float" d = false ->
               str_in "bool" d = false ->
               str_in "datetime" d || str_in "date" d = true ->
               canonical_type d = "TIMESTAMP_NTZ") /\
    (forall d, str_in "int" d = false -> str_in "float" d = false ->
               str_in "bool" d = false ->
               str_in "datetime" d || str_in "date" d = false ->
               canonical_type d = "TEXT").
Proof.
  intros Hdf. pose proof Hdf as [Hstr _].
  exists (infer_schema_from_df upper (map to_column df)).
  destruct (infer_schema_classifies upper)
    as (T1 & T2 & T3 & T4 & T5 & _ & _ & Hnd & Hkeys & Hget & Hall).
  split; [now apply infer_frame_agrees|].
  split; [intros ->; reflexivity|].
  split; [apply Hnd|].
  split; [|split; [|split; [|repeat split; assumption]]].
  - intros k. rewrite Hkeys. split.
    + intros (c' & Hin & ->). apply in_map_iff in Hin.
      destruct Hin as (c & <- & Hin). destruct (Hstr c Hin) as [l Hl].
      exists c, l. rewrite (to_column_label c l Hl). auto.
    + intros (c & l & Hin & Hl & ->). exists (to_column c).
      rewrite (to_column_label c l Hl). split; [now apply in_map|reflexivity].
  - intros k t H. destruct (Hget _ _ _ H) as (c' & Hin & -> & ->).
    apply in_map_iff in Hin. destruct Hin as (c & <- & Hin).
    destruct (Hstr c Hin) as [l Hl]. exists c, l.
    rewrite (to_column_label c l Hl). auto.
  - intros Hup. rewrite Hall; rewrite map_map; [reflexivity|exact Hup].
Qed.

End InferFrameClaim.

Lemma infer_schema_on_string_labels_witness :
  exists schema,
    infer_schema_from_frame ascii_upper
      [mkFrameColumn (LStr "id") "int64"; mkFrameColumn (LStr "price") "float64";
       mkFrameColumn (LStr "active") "bool";
       mkFrameColumn (LStr "created") "datetime64[ns]";
       mkFrameColumn (LStr "name") "object"] = Returns schema /\
    dict_get schema "CREATED" = Some "TIMESTAMP_NTZ".
Proof.
  destruct (infer_schema_on_string_labels ascii_upper
              [mkFrameColumn (LStr "id") "int64";
               mkFrameColumn (LStr "price") "float64";
               mkFrameColumn (LStr "active") "bool";
               mkFrameColumn (LStr "created") "datetime64[ns]";
               mkFrameColumn (LStr "name") "object"])
    as (schema & Hs & _).
  - split.
    + intros c [<-|[<-|[<-|[<-|[<-|[]]]]]]; eexists; reflexivity.
    + repeat constructor; simpl; intuition discriminate.
  - exists schema. split; [exact Hs|].
    vm_compute in Hs. injection Hs as <-. reflexivity.
Defined.

(** C8, the claim as stated fails: a frame whose one label is the integer
    0, as [read_json] builds from an array of arrays, makes the function
    raise instead of giving the column a type; and with string labels the
    nullable integer dtype [Int64] is given TEXT and an interval of floats
    is given NUMBER. *)
Lemma infer_schema_claim_fails :
  infer_schema_from_frame ascii_upper [mkFrameColumn (LOther "0") "int64"] =
  Raises AttributeError /\
  infer_schema_from_frame ascii_upper
    [mkFrameColumn (LStr "n") "Int64";
     mkFrameColumn (LStr "span") "interval[float64, right]"] =
  Returns [("N", "TEXT"); ("SPAN", "NUMBER")].
Proof. split; vm_compute; reflexivity. Qed.

(** A label that stands twice: [df[col]] is a frame of two columns. *)
Example infer_schema_repeated_label :
  infer_schema_from_frame ascii_upper
    [mkFrameColumn (LStr "a") "int64"; mkFrameColumn (LStr "a") "object"] =
  Raises AttributeError.
Proof. vm_compute. reflexivity. Qed.
